(** * The action executor of [agent/driver.py]

    A shallow embedding of the driver's action executor: the guarded
    rewrite of [engine/backtest.py] ([safe_modify_engine_backtest]), the
    command runner ([run_command]) and the batch loop ([execute_actions]).

    Python values are an inductive type, dictionaries are association
    lists in insertion order, the operating system is an explicit world
    (a file store, the clock, and a log of what was asked of it), and
    exceptions are a second kind of outcome that [try_except] can catch. *)

From Stdlib Require Import ZArith Ascii String List.
From stdpp Require Import base gmap sets list strings sorting pretty.

Local Open Scope string_scope.
Local Open Scope Z_scope.
Set Warnings "-register-all".

(** ** Python values *)

(** What flows through the driver: the values [json.loads] produces, and
    [pathlib.Path] objects, which only the driver's own code creates. *)
Inductive value : Type :=
  | VNone
  | VBool (b : bool)
  | VInt (n : Z)
  | VFloat (m e : Z)              (* m * 2^e; only its truth value matters *)
  | VStr (s : string)
  | VList (l : list value)
  | VDict (d : list (string * value))
  | VPath (p : string).          (* pathlib.Path(p) *)

(** A dict with string keys, as [json.loads] builds them. *)
Abbreviation dict := (list (string * value)).

(** [d.get(k)]: the first binding of [k]. *)
Fixpoint dict_lookup (d : dict) (k : string) : option value :=
  match d with
  | [] => None
  | (k', v) :: d' => if String.eqb k' k then Some v else dict_lookup d' k
  end.

(** [d.get(k)] and [d.get(k, default)]. *)
Definition dict_get (d : dict) (k : string) : value :=
  default VNone (dict_lookup d k).
Definition dict_get_default (d : dict) (k : string) (dflt : value) : value :=
  default dflt (dict_lookup d k).

(** [bool(v)], the test behind [if not path] and [a_type or "unknown"]. *)
Definition truthy (v : value) : bool :=
  match v with
  | VNone => false
  | VBool b => b
  | VInt n => negb (n =? 0)
  | VFloat m _ => negb (m =? 0)
  | VStr s => negb (String.eqb s "")
  | VList l => match l with [] => false | _ => true end
  | VDict d => match d with [] => false | _ => true end
  | VPath _ => true
  end.

(** [v == s] for a string literal [s]: only a [str] equals a [str]. *)
Definition eq_str (v : value) (s : string) : bool :=
  match v with
  | VStr t => String.eqb t s
  | _ => false
  end.

(** The values [json.loads] can return: everything but a [Path]. *)
Fixpoint is_json (v : value) : bool :=
  match v with
  | VPath _ => false
  | VList l => forallb is_json l
  | VDict d => forallb (fun kv => is_json (snd kv)) d
  | _ => true
  end.

(** [type(v).__name__], for the texts of [AttributeError] and
    [TypeError]. *)
Definition type_name (v : value) : string :=
  match v with
  | VNone => "NoneType"
  | VBool _ => "bool"
  | VInt _ => "int"
  | VFloat _ _ => "float"
  | VStr _ => "str"
  | VList _ => "list"
  | VDict _ => "dict"
  | VPath _ => "PosixPath"
  end.

(** ** Exceptions *)

(** The exception classes the driver can meet; all derive from
    [Exception], so [except Exception] catches each of them.  The OS
    errors ([FileNotFoundError], [IsADirectoryError], ...) are [OSError]
    with their errno text. *)
Inductive exn : Type :=
  | AttributeError (msg : string)
  | TypeError (msg : string)
  | ValueError (msg : string)
  | OverflowError (msg : string)
  | OSError (msg : string).

(** [str(e)] *)
Definition exn_str (e : exn) : string :=
  match e with
  | AttributeError m | TypeError m | ValueError m | OverflowError m
  | OSError m => m
  end.

(** ** The world *)

(** The file store of a POSIX system without links.  A regular file is
    known by its path and holds its bytes; a directory is known by its
    path.  Paths are taken as the OS is given them: the store does not
    relate two spellings of one name, so a statement about a path is a
    statement about that spelling (see [canonical] and [tidy] for the
    worlds and paths where a name has one spelling only).  The current
    directory ["."] and the root always exist. *)
Record FS : Type := mkFS {
  files : gmap string string;
  dirs : gset string;
}.

(** What the driver asked of the operating system, oldest first. *)
Inductive event : Type :=
  | EvResolve (p : string)        (* Path.resolve() *)
  | EvExists (p : string)         (* Path.exists() *)
  | EvRead (p : string)           (* open for reading / read_text *)
  | EvWrite (p : string)          (* open for writing / write_text *)
  | EvMakedirs (p : string)       (* os.makedirs *)
  | EvListdir (p : string)        (* os.listdir *)
  | EvClock                       (* datetime.utcnow() *)
  | EvSpawn (cmd : string).       (* subprocess.run(cmd, shell=True) *)

(** [utc] is what [datetime.utcnow().strftime("%Y%m%d_%H%M%S")] returns
    when asked. *)
Record World : Type := mkWorld {
  fs : FS;
  utc : string;
  trace : list event;
}.

Definition set_fs (f : FS) (w : World) : World :=
  mkWorld f (utc w) (trace w).
Definition log (ev : event) (w : World) : World :=
  mkWorld (fs w) (utc w) (trace w ++ [ev]).

(** ** Computations: state and exceptions *)

Inductive outcome (A : Type) : Type :=
  | Return (a : A)
  | Raise (e : exn).
Arguments Return {A} a.
Arguments Raise {A} e.

Definition M (A : Type) : Type := World -> outcome A * World.

Definition ret {A} (a : A) : M A := fun w => (Return a, w).
Definition raise {A} (e : exn) : M A := fun w => (Raise e, w).
Definition bind {A B} (m : M A) (k : A -> M B) : M B :=
  fun w =>
    match m w with
    | (Return a, w') => k a w'
    | (Raise e, w') => (Raise e, w')
    end.

(** [try: body / except Exception as e: handler e] *)
Definition try_except {A} (body : M A) (handler : exn -> M A) : M A :=
  fun w =>
    match body w with
    | (Return a, w') => (Return a, w')
    | (Raise e, w') => handler e w'
    end.

Definition get_world : M World := fun w => (Return w, w).
Definition emit (ev : event) : M unit := fun w => (Return tt, log ev w).
Definition put_fs (f : FS) : M unit := fun w => (Return tt, set_fs f w).

Declare Scope py_scope.
Delimit Scope py_scope with py.
Notation "x <- m ;; k" := (bind m (fun x => k))
  (at level 100, m at next level, right associativity) : py_scope.
Notation "m ;;; k" := (bind m (fun _ => k))
  (at level 100, right associativity) : py_scope.
Local Open Scope py_scope.

(** ** Strings *)

(** Python [str] is modelled by the UTF-8 bytes of the text.  On
    well-formed UTF-8 a byte prefix is a code-point prefix, and byte
    order is code-point order, so [startswith] and [sorted] can work on
    the bytes. *)

Definition byte (n : nat) : ascii := ascii_of_nat n.
Definition bytes (l : list nat) : string := string_of_list_ascii (map byte l).

(** [s.startswith(p)] *)
Definition startswith (s p : string) : bool := String.prefix p s.

(** *** Bytes and text *)

(** Files and pipes hold bytes; text is decoded from them as UTF-8 (the
    encoding every [open] of the driver names, and the locale's for
    [subprocess.run(text=True)]).  [utf8_valid] is the well-formedness
    of RFC 3629: shortest forms only, no surrogates, nothing above
    U+10FFFF. *)
Definition in_range (c : ascii) (lo hi : N) : bool :=
  ((lo <=? N_of_ascii c) && (N_of_ascii c <=? hi))%N.
Definition continuation (c : ascii) : bool := in_range c 128 191.

Fixpoint utf8_valid (s : string) : bool :=
  match s with
  | EmptyString => true
  | String a s1 =>
      if in_range a 0 127 then utf8_valid s1
      else
        match s1 with
        | EmptyString => false
        | String b s2 =>
            if in_range a 194 223 then continuation b && utf8_valid s2
            else
              match s2 with
              | EmptyString => false
              | String c s3 =>
                  if (in_range a 224 224 && in_range b 160 191)
                     || (in_range a 225 236 && continuation b)
                     || (in_range a 237 237 && in_range b 128 159)
                     || (in_range a 238 239 && continuation b)
                  then continuation c && utf8_valid s3
                  else
                    match s3 with
                    | EmptyString => false
                    | String d s4 =>
                        if (in_range a 240 240 && in_range b 144 191)
                           || (in_range a 241 243 && continuation b)
                           || (in_range a 244 244 && in_range b 128 143)
                        then continuation c && continuation d && utf8_valid s4
                        else false
                    end
              end
        end
  end.

Definition CR : ascii := ascii_of_nat 13.
Definition LF : ascii := ascii_of_nat 10.

(** Reading in text mode with [newline=None]: each of CR LF, CR and LF
    comes out as LF. *)
Fixpoint universal_newlines (s : string) : string :=
  match s with
  | EmptyString => EmptyString
  | String c s1 =>
      if Ascii.eqb c CR then
        String LF
          match s1 with
          | String d s2 =>
              if Ascii.eqb d LF then universal_newlines s2
              else universal_newlines s1
          | EmptyString => EmptyString
          end
      else String c (universal_newlines s1)
  end.

(* Writing text on POSIX leaves line ends as they are, so what is
   written is the text's UTF-8.  A [str] that has no UTF-8 (one with a
   lone surrogate) is not a value of this model: where a statement
   writes a text, it says [utf8_valid] of it. *)

(** The code points for which [str.isspace] holds, in UTF-8: these are
    what [str.strip()] removes. *)
Definition whitespace : list string :=
  map bytes
    (([ [9]; [10]; [11]; [12]; [13]; [28]; [29]; [30]; [31]; [32];
        [194; 133]; [194; 160]; [225; 154; 128] ]
      ++ map (fun k => [226; 128; k]) (seq 128 11)
      ++ [ [226; 128; 168]; [226; 128; 169]; [226; 128; 175];
           [226; 129; 159]; [227; 128; 128] ])%nat)%list.

Fixpoint drop_string (n : nat) (s : string) : string :=
  match n, s with
  | S n', String _ s' => drop_string n' s'
  | _, _ => s
  end.

(** The rest of [s] after one leading member of [seqs], if any. *)
Definition drop_one (seqs : list string) (s : string) : option string :=
  match List.find (fun q => String.prefix q s) seqs with
  | Some q => Some (drop_string (String.length q) s)
  | None => None
  end.

Fixpoint lstrip_with (seqs : list string) (fuel : nat) (s : string) : string :=
  match fuel with
  | O => s
  | S fuel' =>
      match drop_one seqs s with
      | Some s' => lstrip_with seqs fuel' s'
      | None => s
      end
  end.

Definition string_rev (s : string) : string :=
  string_of_list_ascii (rev (list_ascii_of_string s)).

Definition lstrip (s : string) : string :=
  lstrip_with whitespace (String.length s) s.
Definition rstrip (s : string) : string :=
  string_rev
    (lstrip_with (map string_rev whitespace) (String.length s) (string_rev s)).

(** [s.strip()] *)
Definition strip (s : string) : string := rstrip (lstrip s).

(** [s.rstrip("/")] *)
Fixpoint rstrip_slash_rev (r : list ascii) : list ascii :=
  match r with
  | c :: r' => if Ascii.eqb c "/" then rstrip_slash_rev r' else r
  | [] => []
  end.

(** In a reversed path, the part after the first ["/"], that slash
    included: reversed, it is [p[:p.rfind("/") + 1]]. *)
Fixpoint rhead_rev (r : list ascii) : list ascii :=
  match r with
  | c :: r' => if Ascii.eqb c "/" then r else rhead_rev r'
  | [] => []
  end.

(** [os.path.dirname(p)] of [posixpath]: the head up to the last slash,
    its trailing slashes removed unless it is slashes only. *)
Definition dirname (p : string) : string :=
  let head := rhead_rev (rev (list_ascii_of_string p)) in
  match rstrip_slash_rev head with
  | [] => string_of_list_ascii (rev head)
  | h => string_of_list_ascii (rev h)
  end.

(** [a / b] of [pathlib] for a relative [b]: one slash between the two,
    none after a root. *)
Definition ends_with_slash (a : string) : bool :=
  match rev (list_ascii_of_string a) with
  | c :: _ => Ascii.eqb c "/"
  | [] => false
  end.
Definition path_join (a b : string) : string :=
  a ++ (if ends_with_slash a then "" else "/") ++ b.

(** [repr(s)] of a string without quotes or escapes in it. *)
Definition repr_str (s : string) : string := "'" ++ s ++ "'".

(** [sorted(names)]: ascending code-point order. *)
Definition sorted (names : list string) : list string :=
  merge_sort String.le names.

(** ** Operating-system primitives *)

(** A path of slashes only is the root directory. *)
Definition is_root (p : string) : bool :=
  negb (String.eqb p "")
  && forallb (fun c => Ascii.eqb c "/") (list_ascii_of_string p).

Definition is_dir (f : FS) (p : string) : bool :=
  String.eqb p "." || is_root p || bool_decide (p ∈ dirs f).
Definition is_file (f : FS) (p : string) : bool :=
  bool_decide (is_Some (files f !! p)).

Definition enoent (p : string) : exn :=
  OSError ("[Errno 2] No such file or directory: " ++ repr_str p).
Definition eisdir (p : string) : exn :=
  OSError ("[Errno 21] Is a directory: " ++ repr_str p).
Definition enotdir (p : string) : exn :=
  OSError ("[Errno 20] Not a directory: " ++ repr_str p).
Definition eexist (p : string) : exn :=
  OSError ("[Errno 17] File exists: " ++ repr_str p).
Definition ebadf : exn := OSError "[Errno 9] Bad file descriptor".
(** [UnicodeDecodeError], a [ValueError]; byte and position left out. *)
Definition undecodable : exn :=
  ValueError "'utf-8' codec can't decode bytes: invalid UTF-8".

(** [raw.decode("utf-8")] followed by the newline translation of text
    mode. *)
Definition decode_text (raw : string) : outcome string :=
  if utf8_valid raw then Return (universal_newlines raw)
  else Raise undecodable.
Definition not_pathlike (v : value) : exn :=
  TypeError ("expected str, bytes or os.PathLike object, not "
             ++ type_name v).

(** A C [int], the range of a file descriptor. *)
Definition fits_int (n : Z) : bool := (- 2 ^ 31 <=? n) && (n <=? 2 ^ 31 - 1).

(** How the path argument of [open] reaches the OS: as text, as a file
    descriptor (none can be read or written by the driver), or not at
    all. *)
Definition fspath (v : value) : M string :=
  match v with
  | VStr p | VPath p => ret p
  | VInt n =>
      if negb (fits_int n) then raise (not_pathlike v)
      else if n <? 0 then raise (ValueError "negative file descriptor")
      else raise ebadf
  | VBool _ => raise ebadf
  | _ => raise (not_pathlike v)
  end.

(** Opening [p] for writing creates or truncates it; the directory that
    is to hold it must exist. *)
Definition writable (f : FS) (p : string) : bool :=
  negb (String.eqb p "") && negb (is_dir f p)
  && (String.eqb (dirname p) "" || is_dir f (dirname p)).

Definition store (p content : string) (f : FS) : FS :=
  mkFS (<[p := content]> (files f)) (dirs f).

Definition open_w (p : string) : M unit :=
  emit (EvWrite p) ;;;
  w <- get_world ;;
  if writable (fs w) p then put_fs (store p "" (fs w))
  else if String.eqb p "" then raise (enoent p)
  else if is_dir (fs w) p then raise (eisdir p)
  else if is_file (fs w) (dirname p) then raise (enotdir p)
  else raise (enoent p).

(** [f.write(data)] on a file opened for writing in text mode; the
    error names the type of [data], [None] by its own name. *)
Definition file_write (p : string) (data : value) : M unit :=
  match data with
  | VStr text => w <- get_world ;; put_fs (store p text (fs w))
  | VNone => raise (TypeError "write() argument must be str, not None")
  | _ => raise (TypeError ("write() argument must be str, not "
                           ++ type_name data))
  end.

(** [open(p, "r", encoding="utf-8").read()]: the bytes of the file,
    decoded, with the line ends of text mode. *)
Definition open_read (p : string) : M string :=
  emit (EvRead p) ;;;
  w <- get_world ;;
  match files (fs w) !! p with
  | Some raw =>
      match decode_text raw with
      | Return text => ret text
      | Raise e => raise e
      end
  | None => if is_dir (fs w) p then raise (eisdir p) else raise (enoent p)
  end.

(** The names in directory [d]: what follows [d/] in the path of a file
    or directory right below it (for the root: what follows the root;
    for ["."]: the paths without a slash). *)
Definition has_slash (s : string) : bool :=
  existsb (fun c => Ascii.eqb c "/") (list_ascii_of_string s).

Definition child_name (d k : string) : option string :=
  let rest :=
    if String.eqb d "." then Some k
    else if is_root d then
      if String.prefix d k then Some (drop_string (String.length d) k)
      else None
    else if String.prefix (d ++ "/") k
         then Some (drop_string (String.length d + 1) k)
         else None in
  match rest with
  | Some n =>
      if String.eqb n "" || String.eqb n "." || has_slash n
      then None else Some n
  | None => None
  end.

Definition entries (f : FS) (d : string) : list string :=
  omap (child_name d) (elements (dom (files f) ∪ dirs f)).

(** What [os.listdir] makes of its argument: [None] stands for the
    current directory, and so does -1; any other integer is a file
    descriptor (0, 1 and 2 are open and are no directories). *)
Definition listdir_path (path : value) : M string :=
  match path with
  | VNone => ret "."
  | VStr p | VPath p => ret p
  | VInt n =>
      if n <? - 2 ^ 31 then raise (OverflowError "fd is less than minimum")
      else if 2 ^ 31 - 1 <? n
      then raise (OverflowError "fd is greater than maximum")
      else if n =? -1 then ret "."
      else if (0 <=? n) && (n <=? 2)
      then raise (OSError ("[Errno 20] Not a directory: " ++ pretty n))
      else raise ebadf
  | VBool b =>
      raise (OSError ("[Errno 20] Not a directory: "
                      ++ if b then "True" else "False"))
  | _ =>
      raise (TypeError
               ("listdir: path should be string, bytes, os.PathLike, integer or None, not "
                ++ type_name path))
  end.

(** [os.listdir(path)] *)
Definition os_listdir (path : value) : M (list string) :=
  d <- listdir_path path ;;
  emit (EvListdir d) ;;;
  w <- get_world ;;
  if is_dir (fs w) d then ret (entries (fs w) d)
  else if is_file (fs w) d then raise (enotdir d)
  else raise (enoent d).

(** [os.path.dirname(path)] *)
Definition os_path_dirname (path : value) : M string :=
  match path with
  | VStr p | VPath p => ret (dirname p)
  | _ => raise (not_pathlike path)
  end.

(** [name] and the directories above it, outermost first. *)
Fixpoint prefixes_at_slash (seen rest : list ascii) : list string :=
  match rest with
  | [] => []
  | c :: rest' =>
      (match seen with
       | last :: _ =>
           if Ascii.eqb c "/" && negb (Ascii.eqb last "/")
           then [string_of_list_ascii (rev seen)] else []
       | [] => []
       end)
      ++ prefixes_at_slash (c :: seen) rest'
  end%list.

Definition lineage (name : string) : list string :=
  (prefixes_at_slash [] (list_ascii_of_string name) ++ [name])%list.

(** The member of [l] that follows [q]. *)
Fixpoint next_after (q : string) (l : list string) : option string :=
  match l with
  | a :: (b :: _) as rest => if String.eqb a q then Some b else next_after q rest
  | _ => None
  end.

(** [os.makedirs(name, exist_ok=True)].  The empty name is no directory:
    [mkdir("")] fails with ENOENT, and [exist_ok] only forgives a
    directory that is already there.  Below a regular file the [mkdir]
    that fails is the one right under it. *)
Definition os_makedirs_exist_ok (name : string) : M unit :=
  emit (EvMakedirs name) ;;;
  w <- get_world ;;
  if String.eqb name "" then raise (enoent name)
  else if is_dir (fs w) name then ret tt
  else
    match List.find (is_file (fs w)) (lineage name) with
    | Some q =>
        if String.eqb q name then raise (eexist q)
        else raise (enotdir (default name (next_after q (lineage name))))
    | None =>
        put_fs (mkFS (files (fs w)) (dirs (fs w) ∪ list_to_set (lineage name)))
    end.

(** [Path.exists()] *)
Definition path_exists (p : string) : M bool :=
  emit (EvExists p) ;;;
  w <- get_world ;;
  ret (is_file (fs w) p || is_dir (fs w) p).

(** [Path.read_text(encoding="utf-8")] *)
Definition read_text (p : string) : M string := open_read p.

(** [Path.write_text(data, encoding="utf-8")]: the type of [data] is
    checked before the file is opened. *)
Definition write_text (p : string) (data : value) : M unit :=
  match data with
  | VStr _ => open_w p ;;; file_write p data
  | _ => raise (TypeError ("data must be str, not " ++ type_name data))
  end.

(** [datetime.utcnow().strftime("%Y%m%d_%H%M%S")] *)
Definition utcnow_stamp : M string :=
  emit EvClock ;;; w <- get_world ;; ret (utc w).

(** What a finished subprocess leaves: [CompletedProcess]'s three
    fields, the two outputs as the bytes captured from the pipes or as
    the text decoded from them. *)
Record proc : Type := mkProc {
  stdout : string;
  stderr : string;
  returncode : Z;
}.

(** [ok, msg = d]: unpacking iterates over the keys of the dict. *)
Definition unpack2 (d : dict) : M (value * value) :=
  match d with
  | [(k1, _); (k2, _)] => ret (VStr k1, VStr k2)
  | [] => raise (ValueError "not enough values to unpack (expected 2, got 0)")
  | [_] => raise (ValueError "not enough values to unpack (expected 2, got 1)")
  | _ => raise (ValueError "too many values to unpack (expected 2)")
  end.

(** A call [f(..., k=v, ...)] of [def f(params)]: a keyword that names
    no parameter is a [TypeError], raised before the body runs. *)
Definition check_keywords (fname : string) (params : list string)
    (kwargs : dict) : M unit :=
  match List.find (fun kv => negb (existsb (String.eqb (fst kv)) params)) kwargs with
  | Some (k, _) =>
      raise (TypeError (fname ++ "() got an unexpected keyword argument "
                        ++ repr_str k))
  | None => ret tt
  end.

(** ** The driver *)

Section Driver.

(** [ROOT_DIR], resolved when the module is loaded. *)
Variable ROOT_DIR : string.

(** The two switches of the security configuration. *)
Variable ALLOW_RUN_COMMANDS : bool.
Variable ALLOW_MODIFY_ENGINE : bool.

(** [Path.resolve()]: the canonical absolute path, as the file system
    stands. *)
Variable realpath : FS -> string -> string.

(** What a shell command does when run from [ROOT_DIR]: the bytes it
    writes to its two pipes and its exit code, or the [OSError] of a
    shell that could not be started, and the file system it leaves. *)
Variable shell : string -> FS -> outcome proc * FS.

(** [repr] of the values whose text the driver never inspects (floats,
    lists, dicts). *)
Variable repr_other : value -> string.

(** [str(v)], as an f-string formats [v]. *)
Definition py_str (v : value) : string :=
  match v with
  | VStr s | VPath s => s
  | VNone => "None"
  | VBool true => "True"
  | VBool false => "False"
  | VInt n => pretty n
  | _ => repr_other v
  end.

(** [path.resolve()] on whatever [path] is: only a [Path] has the
    method. *)
Definition resolve (path : value) : M string :=
  match path with
  | VPath p => emit (EvResolve p) ;;; w <- get_world ;; ret (realpath (fs w) p)
  | _ => raise (AttributeError (repr_str (type_name path)
                                ++ " object has no attribute 'resolve'"))
  end.

(** [s.strip()] on whatever [s] is. *)
Definition call_strip (v : value) : M string :=
  match v with
  | VStr s => ret (strip s)
  | _ => raise (AttributeError (repr_str (type_name v)
                                ++ " object has no attribute 'strip'"))
  end.

Definition proc_value (r : proc) : value :=
  VDict [("stdout", VStr (stdout r)); ("stderr", VStr (stderr r));
         ("returncode", VInt (returncode r))].

(** [def run_command(command: str)] *)
Definition run_command_params : list string := ["command"].

Definition run_command (command : string) : M proc :=
  emit (EvSpawn command) ;;;
  w <- get_world ;;
  let (result, f) := shell command (fs w) in
  put_fs f ;;;
  match result with
  | Raise e => raise e
  | Return raw =>
      (* text=True: both captures are decoded, stdout first *)
      match decode_text (stdout raw) with
      | Raise e => raise e
      | Return out =>
          match decode_text (stderr raw) with
          | Raise e => raise e
          | Return err => ret (mkProc out err (returncode raw))
          end
      end
  end.

(** A call [run_command(command, **kwargs)]. *)
Definition call_run_command (command : string) (kwargs : dict) : M proc :=
  check_keywords "run_command" run_command_params kwargs ;;;
  run_command command.

Definition engine_file : string :=
  path_join (path_join ROOT_DIR "engine") "backtest.py".
Definition backup_path (ts : string) : string :=
  path_join (path_join ROOT_DIR "engine") ("backtest_backup_" ++ ts ++ ".py").

Definition compile_cmd : string := "python -m py_compile engine/backtest.py".
Definition smoke_cmd : string :=
  "python engine/backtest.py strategies/example_ma_crossover.py".

(** [def safe_modify_engine_backtest(path: Path, new_content: str)] *)
Definition safe_modify_engine_backtest (path new_content : value) : M dict :=
  mine <- resolve path ;;
  theirs <- resolve (VPath engine_file) ;;
  if negb (String.eqb mine theirs) then
    ret [("type", VStr "write_file");
         ("path", VStr (py_str path));
         ("status", VStr "blocked");
         ("error", VStr "safe_modify_engine_backtest chamado para arquivo que não é engine/backtest.py.")]
  else
    there <- path_exists engine_file ;;
    if negb there then
      ret [("type", VStr "write_file");
           ("path", VStr engine_file);
           ("status", VStr "blocked");
           ("error", VStr "engine/backtest.py não encontrado para modificação segura.")]
    else
      original_content <- read_text engine_file ;;
      ts <- utcnow_stamp ;;
      let backup_file := backup_path ts in
      write_text backup_file (VStr original_content) ;;;
      write_text engine_file new_content ;;;
      compile_result <- call_run_command compile_cmd [] ;;
      if negb (returncode compile_result =? 0) then
        write_text engine_file (VStr original_content) ;;;
        ret [("type", VStr "write_file");
             ("path", VStr engine_file);
             ("status", VStr "reverted");
             ("stage", VStr "compile");
             ("error", VStr "Falha na compilação de engine/backtest.py; restauração do original.");
             ("backup_path", VStr backup_file);
             ("compile_result", proc_value compile_result)]
      else
        smoke_result <- call_run_command smoke_cmd [] ;;
        if negb (returncode smoke_result =? 0) then
          write_text engine_file (VStr original_content) ;;;
          ret [("type", VStr "write_file");
               ("path", VStr engine_file);
               ("status", VStr "reverted");
               ("stage", VStr "smoke_test");
               ("error", VStr "Backtest de fumaça falhou; restauração do original.");
               ("backup_path", VStr backup_file);
               ("smoke_result", proc_value smoke_result)]
        else
          ret [("type", VStr "write_file");
               ("path", VStr engine_file);
               ("status", VStr "ok");
               ("backup_path", VStr backup_file);
               ("compile_result", proc_value compile_result);
               ("smoke_result", proc_value smoke_result)].

(** The prefixes a command may start with. *)
Definition allowed_prefixes : list string :=
  [ "python engine/fetch_data.py";
    "python engine/backtest.py";
    "python engine/analyze_runs.py";
    "python engine/plot_strategy.py";
    "python engine/optimize_params.py";
    "pip install -r requirements.txt" ].

Definition blocked_message (command : string) : string :=
  "Comando bloqueado. O driver só permite atualmente:\n"
  ++ "- python engine/fetch_data.py ...\n"
  ++ "- python engine/backtest.py ...\n"
  ++ "- python engine/analyze_runs.py ...\n"
  ++ "- python engine/plot_strategy.py ...\n"
  ++ "- python engine/optimize_params.py ...\n"
  ++ "- pip install -r requirements.txt\n"
  ++ "Comando solicitado: " ++ command.

(** The body of the [for action in actions] loop of [execute_actions]:
    the dict it appends to [results], or the exception it lets go. *)
Definition dispatch (action : dict) : M dict :=
  let a_type := dict_get action "type" in
  if eq_str a_type "list_dir" then
    let path := dict_get_default action "path" (VStr ".") in
    try_except
      (items <- os_listdir path ;;
       ret [("type", VStr "list_dir");
            ("path", path);
            ("items", VList (map VStr (sorted items)))])
      (fun e =>
       ret [("type", VStr "list_dir");
            ("path", path);
            ("error", VStr (exn_str e))])
  else if eq_str a_type "read_file" then
    let path := dict_get action "path" in
    if negb (truthy path) then
      ret [("type", VStr "read_file"); ("error", VStr "missing path")]
    else
      try_except
        (p <- fspath path ;;
         content <- open_read p ;;
         ret [("type", VStr "read_file");
              ("path", path);
              ("content", VStr content)])
        (fun e =>
         ret [("type", VStr "read_file");
              ("path", path);
              ("error", VStr (exn_str e))])
  else if eq_str a_type "write_file" then
    let path := dict_get action "path" in
    let content := dict_get_default action "content" (VStr "") in
    if negb (truthy path) then
      ret [("type", VStr "write_file"); ("error", VStr "missing path")]
    else
      try_except
        (d <- os_path_dirname path ;;
         os_makedirs_exist_ok d ;;;
         p <- fspath path ;;
         open_w p ;;;
         file_write p content ;;;
         ret [("type", VStr "write_file");
              ("path", path);
              ("status", VStr "ok")])
        (fun e =>
         ret [("type", VStr "write_file");
              ("path", path);
              ("error", VStr (exn_str e))])
  else if eq_str a_type "modify_engine" then
    if negb ALLOW_MODIFY_ENGINE then
      ret [("type", VStr "modify_engine");
           ("status", VStr "blocked");
           ("reason", VStr "ALLOW_MODIFY_ENGINE=False no driver.py")]
    else
      let path := dict_get action "path" in
      let content := dict_get_default action "content" (VStr "") in
      try_except
        (r <- safe_modify_engine_backtest path content ;;
         pr <- unpack2 r ;;
         let (ok, msg) := pr in
         let status := if truthy ok then "ok" else "error" in
         ret [("type", VStr "modify_engine");
              ("path", path);
              ("status", VStr status);
              ("message", msg)])
        (fun e =>
         ret [("type", VStr "modify_engine");
              ("path", path);
              ("status", VStr "error");
              ("message", VStr (exn_str e))])
  else if eq_str a_type "run_command" then
    command <- call_strip (dict_get_default action "command" (VStr "")) ;;
    if String.eqb command "" then
      ret [("type", VStr "run_command");
           ("status", VStr "error");
           ("error", VStr "empty command")]
    else if negb ALLOW_RUN_COMMANDS then
      ret [("type", VStr "run_command");
           ("command", VStr command);
           ("status", VStr "blocked");
           ("error", VStr "Execução de comandos desativada (ALLOW_RUN_COMMANDS=False).")]
    else
      let allowed := existsb (startswith command) allowed_prefixes in
      if negb allowed then
        ret [("type", VStr "run_command");
             ("command", VStr command);
             ("status", VStr "blocked");
             ("error", VStr (blocked_message command))]
      else
        result <- call_run_command command [("cwd", VStr ROOT_DIR)] ;;
        ret [("type", VStr "run_command");
             ("command", VStr command);
             ("status", VStr (if returncode result =? 0 then "ok" else "error"));
             ("returncode", VInt (returncode result));
             ("stdout", VStr (stdout result));
             ("stderr", VStr (stderr result))]
  else
    ret [("type", if truthy a_type then a_type else VStr "unknown");
         ("status", VStr "error");
         ("error", VStr ("Ação desconhecida: " ++ py_str a_type));
         ("raw_action", VDict action)].

(** The loop itself: [results] grows by one dict per action, in order,
    and an exception that leaves the body ends the loop and the call. *)
Fixpoint run_batch (actions : list dict) (results : list dict)
    : M (list dict) :=
  match actions with
  | [] => ret results
  | action :: rest =>
      r <- dispatch action ;;
      run_batch rest (results ++ [r])
  end.

(** [def execute_actions(actions)]: returns [{"results": results}]. *)
Definition execute_actions (actions : list dict) : M dict :=
  results <- run_batch actions [] ;;
  ret [("results", VList (map VDict results))].

End Driver.

(** ** Around the executor *)

(** Paths as [pathlib] compares them.  A resolved path is absolute and
    normalised; its parts are the names between the slashes, the root
    left implicit. *)
Fixpoint split_slash (cur rest : list ascii) : list string :=
  match rest with
  | [] => [string_of_list_ascii (rev cur)]
  | c :: rest' =>
      if Ascii.eqb c "/"
      then string_of_list_ascii (rev cur) :: split_slash [] rest'
      else split_slash (c :: cur) rest'
  end.

Definition path_parts (p : string) : list string :=
  List.filter (fun name => negb (String.eqb name ""))
              (split_slash [] (list_ascii_of_string p)).

(** [a == b] on paths. *)
Definition parts_eqb (a b : list string) : bool := bool_decide (a = b).

(** [self.is_relative_to(other)]: the parts of [other] open those of
    [self]. *)
Fixpoint is_relative_to (self other : list string) : bool :=
  match other, self with
  | [], _ => true
  | o :: other', x :: self' => String.eqb o x && is_relative_to self' other'
  | _ :: _, [] => false
  end.

(** [self.parents]: the ancestors, nearest first, the root last. *)
Fixpoint ancestors (parts : list string) : list (list string) :=
  match parts with
  | [] => []
  | x :: parts' => (map (cons x) (ancestors parts') ++ [[]])%list
  end.

(** [try: body / except AttributeError: handler] *)
Definition try_except_attribute {A} (body : M A) (handler : M A) : M A :=
  fun w =>
    match body w with
    | (Raise (AttributeError _), w') => handler w'
    | r => r
    end.

(** Substring test, [sub in s] on strings. *)
Fixpoint str_contains (sub s : string) : bool :=
  String.prefix sub s
  || match s with
     | String _ s' => str_contains sub s'
     | EmptyString => false
     end.

Definition newline : string := String (ascii_of_nat 10) "".

Section Controller.

Variable ROOT_DIR : string.
Variable realpath : FS -> string -> string.
Variable repr_other : value -> string.

(** Whether the running Python has [PurePath.is_relative_to] (3.9 on). *)
Variable has_is_relative_to : bool.

(** The model behind [client.chat.completions.create]: for a history,
    the [content] of the first choice ([None] when it has none), or the
    exception the client raises. *)
Variable chat_completion : list dict -> outcome (option string).

(** [json.loads]: the decoded value, or the text of the
    [JSONDecodeError]. *)
Variable json_loads : string -> string + value.

(** [def is_under_strategies(path: Path) -> bool] *)
Definition is_under_strategies (path : value) : M bool :=
  strategies_root <- resolve realpath (VPath (path_join ROOT_DIR "strategies")) ;;
  try_except_attribute
    (mine <- resolve realpath path ;;
     if has_is_relative_to
     then ret (is_relative_to (path_parts mine) (path_parts strategies_root))
     else raise (AttributeError
                   "'PosixPath' object has no attribute 'is_relative_to'"))
    (resolved <- resolve realpath path ;;
     ret (parts_eqb (path_parts strategies_root) (path_parts resolved)
          || existsb (parts_eqb (path_parts strategies_root))
                     (ancestors (path_parts resolved)))).

Definition PROMPT_PATH : string := path_join ROOT_DIR "PROMPT_MESTRE.md".

(** [def read_prompt() -> str]; [FileNotFoundError] is an [OSError]. *)
Definition read_prompt : M string :=
  there <- path_exists PROMPT_PATH ;;
  if negb there then
    raise (OSError ("PROMPT_MESTRE.md não encontrado em " ++ PROMPT_PATH
                    ++ ". "
                    ++ "Crie o arquivo com o prompt mestre antes de rodar o driver."))
  else read_text PROMPT_PATH.

(** ["actions" not in data or not isinstance(data["actions"], list)]:
    membership as the type of [data] defines it, then the subscript. *)
Definition lacks_action_list (data : value) : M bool :=
  match data with
  | VDict d =>
      match dict_lookup d "actions" with
      | None => ret true
      | Some (VList _) => ret false
      | Some _ => ret true
      end
  | VList l =>
      if existsb (fun v => eq_str v "actions") l
      then raise (TypeError "list indices must be integers or slices, not str")
      else ret true
  | VStr s =>
      if str_contains "actions" s
      then raise (TypeError "string indices must be integers, not 'str'")
      else ret true
  | _ => raise (TypeError ("argument of type " ++ repr_str (type_name data)
                           ++ " is not iterable"))
  end.

(** [def call_agent(messages)] *)
Definition call_agent (messages : list dict) : M value :=
  match chat_completion messages with
  | Raise e => raise e
  | Return None => raise (ValueError "Resposta do modelo veio vazia.")
  | Return (Some content) =>
      match json_loads content with
      | inl e =>
          raise (ValueError
                   ("Falha ao interpretar resposta do modelo como JSON."
                    ++ newline ++ "Erro: " ++ e ++ newline
                    ++ "Conteúdo bruto:" ++ newline ++ content))
      | inr data =>
          bad <- lacks_action_list data ;;
          if bad then
            raise (ValueError
                     ("JSON retornado não contém a chave 'actions' em formato de lista."
                      ++ newline ++ "Conteúdo: " ++ py_str repr_other data))
          else ret data
      end
  end.

End Controller.

(** ** Sample worlds *)

(** A project checked out at [/repo], with the protected file of the
    specification's scenario, and three shells: one whose compile check
    fails, one whose smoke test fails, one where both pass.  None of
    them touches the file store. *)
Definition sample_root : string := "/repo".
Definition sample_realpath (f : FS) (p : string) : string := p.
Definition sample_repr (v : value) : string := "<object>".

Definition sample_fs : FS :=
  mkFS {[ "/repo/engine/backtest.py" := "def f(): return 1" ]}
       {[ "/repo"; "/repo/engine" ]}.
Definition sample_world : World := mkWorld sample_fs "20240101_120000" [].
Definition bare_world : World :=
  mkWorld (mkFS ∅ {[ "/repo"; "/repo/engine" ]}) "20240101_120000" [].

Definition shell_compile_fails (cmd : string) (f : FS) : outcome proc * FS :=
  (Return (mkProc "" "SyntaxError: invalid syntax"
                  (if String.eqb cmd compile_cmd then 1 else 0)), f).
Definition shell_smoke_fails (cmd : string) (f : FS) : outcome proc * FS :=
  (Return (mkProc "" "Traceback (most recent call last)"
                  (if String.eqb cmd smoke_cmd then 1 else 0)), f).
Definition shell_passes (cmd : string) (f : FS) : outcome proc * FS :=
  (Return (mkProc "done" "" 0), f).

(** A smoke test that exits zero after writing a byte that is no
    UTF-8, and one that exits zero after rewriting the protected
    file. *)
Definition garbled : string := String (ascii_of_nat 255) "".
Definition shell_smoke_garbled (cmd : string) (f : FS) : outcome proc * FS :=
  (Return (mkProc (if String.eqb cmd smoke_cmd then garbled else "") "" 0), f).
Definition shell_smoke_rewrites (cmd : string) (f : FS) : outcome proc * FS :=
  (Return (mkProc "" "" 0),
   if String.eqb cmd smoke_cmd
   then mkFS (<["/repo/engine/backtest.py" := "def f(): return 3"]> (files f))
             (dirs f)
   else f).

(** A compile check that exits nonzero and quotes a line that is no
    UTF-8 in its error output. *)
Definition shell_compile_garbled (cmd : string) (f : FS) : outcome proc * FS :=
  (Return (mkProc "" ("SyntaxError: " ++ garbled)
                  (if String.eqb cmd compile_cmd then 1 else 0)), f).

(** The protected file with the line ends of a Windows checkout, and
    the same two lines ending in line feeds. *)
Definition crlf_text : string :=
  "x = 1" ++ String CR (String LF "y = 2" ++ String CR (String LF "")).
Definition lf_text : string := "x = 1" ++ String LF ("y = 2" ++ String LF "").
Definition crlf_world : World :=
  mkWorld (mkFS {[ "/repo/engine/backtest.py" := crlf_text ]}
                {[ "/repo"; "/repo/engine" ]})
          "20240101_120000" [].

(** A world where the name the backup would get is taken by a
    directory. *)
Definition clogged_world : World :=
  mkWorld (mkFS {[ "/repo/engine/backtest.py" := "def f(): return 1" ]}
                {[ "/repo"; "/repo/engine";
                   "/repo/engine/backtest_backup_20240101_120000.py" ]})
          "20240101_120000" [].

(** A model that always proposes one directory listing, and a decoder
    that knows that one reply. *)
Definition sample_reply : string := "{actions: [list_dir]}".
Definition sample_chat (messages : list dict) : outcome (option string) :=
  Return (Some sample_reply).
Definition sample_loads (text : string) : string + value :=
  if String.eqb text sample_reply
  then inr (VDict [("actions", VList [VDict [("type", VStr "list_dir")]])])
  else inl "Expecting value: line 1 column 1 (char 0)".

Definition sample_batch : list dict :=
  [ [("type", VStr "read_file"); ("path", VStr "/repo/engine/backtest.py")];
    [("type", VStr "write_file"); ("path", VStr "/repo/engine/notes.md");
     ("content", VStr "todo")];
    [("type", VStr "run_command"); ("command", VStr "ls -la")] ].

(** * Properties of the executor *)

(** The five action types [execute_actions] has a handler for. *)
Definition recognized : list string :=
  ["list_dir"; "read_file"; "write_file"; "modify_engine"; "run_command"].

(** [sub] occurs in [s]. *)
Definition occurs_in (sub s : string) : Prop :=
  exists before after, s = before ++ sub ++ after.

(** OS calls that only look at names: path resolution and the existence
    test.  Every other event opens, lists or creates something, reads
    the clock, or starts a process. *)
Definition is_probe (ev : event) : bool :=
  match ev with
  | EvResolve _ | EvExists _ => true
  | _ => false
  end.

(** The actions whose handler lets an exception leave the loop: a
    [run_command] whose [command] is no string, or names an allowed
    command while commands are enabled. *)
Definition escapes (run : bool) (action : dict) : bool :=
  eq_str (dict_get action "type") "run_command"
  && match dict_get_default action "command" (VStr "") with
     | VStr raw =>
         negb (String.eqb (strip raw) "") && run
         && existsb (startswith (strip raw)) allowed_prefixes
     | _ => true
     end.

(** An action as [json.loads] delivers it. *)
Definition json_action (action : dict) : bool :=
  forallb (fun kv => is_json (snd kv)) action.

(** The commands a trace has started, oldest first. *)
Definition spawned (t : list event) : list string :=
  omap (fun ev => match ev with EvSpawn c => Some c | _ => None end) t.

(** The OS calls the guard may make for the backup stamp [ts]. *)
Definition guard_event (root ts : string) (ev : event) : Prop :=
  match ev with
  | EvResolve _ | EvClock => True
  | EvExists p | EvRead p => p = engine_file root
  | EvWrite p => p = engine_file root \/ p = backup_path root ts
  | EvSpawn c => c = compile_cmd \/ c = smoke_cmd
  | EvMakedirs _ | EvListdir _ => False
  end.

(** A relation between the world before and after that every step of a
    computation keeps. *)
Definition keeps {A} (R : World -> World -> Prop) (m : M A) : Prop :=
  forall w o w', m w = (o, w') -> R w w'.

Definition same_store (w w' : World) : Prop := fs w' = fs w.
Definition same_spawned (w w' : World) : Prop :=
  spawned (trace w') = spawned (trace w).
Definition grows_by (P : event -> Prop) (w w' : World) : Prop :=
  utc w' = utc w
  /\ exists evs, trace w' = (trace w ++ evs)%list /\ Forall P evs.

(** What [run_command] hands back for the captured output [raw] of a
    process that wrote text: both streams decoded, the exit code as it
    is. *)
Definition decodable (raw : proc) : bool :=
  utf8_valid (stdout raw) && utf8_valid (stderr raw).
Definition decoded (raw : proc) : proc :=
  mkProc (universal_newlines (stdout raw)) (universal_newlines (stderr raw))
         (returncode raw).

(** A path in the one spelling the store keys its objects by: absolute,
    with single slashes, no [.] or [..] component and no slash at the
    end; the root is the single slash.  A component is what a Linux
    file system takes for a name: no NUL in it, at most 255 bytes, the
    whole path below 4096. *)
Definition plain_name (n : string) : bool :=
  negb (String.eqb n "") && negb (String.eqb n ".")
  && negb (String.eqb n "..")
  && negb (existsb (Ascii.eqb Ascii.zero) (list_ascii_of_string n))
  && (String.length n <=? 255)%nat.
Definition canonical (p : string) : bool :=
  (String.length p <=? 4095)%nat
  && match list_ascii_of_string p with
     | c :: rest =>
         Ascii.eqb c "/"
         && match rest with
            | [] => true
            | _ => forallb plain_name (split_slash [] rest)
            end
     | [] => false
     end.

(** A store as a file system has it: every object under its canonical
    path, a text in UTF-8, in a directory that is there, and nothing
    both a file and a directory. *)
Definition tidy (f : FS) : bool :=
  forallb (fun k => canonical k && utf8_valid k && is_dir f (dirname k)
                    && negb (is_file f k && bool_decide (k ∈ dirs f)))
          (elements (dom (files f) ∪ dirs f)).

(** [answers step actions w rs w']: running [step] over [actions] from
    world [w], each action in the world its predecessor left, gives the
    results [rs], one per action and in order, and ends in [w']. *)
Inductive answers (step : dict -> M dict)
    : list dict -> World -> list dict -> World -> Prop :=
  | answers_nil w : answers step [] w [] w
  | answers_cons a rest w r w1 rs w' :
      step a w = (Return r, w1) ->
      answers step rest w1 rs w' ->
      answers step (a :: rest) w (r :: rs) w'.

Lemma eq_str_true v s : eq_str v s = true <-> v = VStr s.
Proof.
  destruct v; simpl; try (split; [discriminate | intros [=]]).
  rewrite String.eqb_eq. split; [intros -> | intros [= ->]]; reflexivity.
Qed.

Lemma eq_str_false v s : v <> VStr s -> eq_str v s = false.
Proof.
  intros Hne. destruct (eq_str v s) eqn:E; [|reflexivity].
  apply eq_str_true in E. contradiction.
Qed.

Lemma string_app_assoc (a b c : string) : (a ++ b) ++ c = a ++ (b ++ c).
Proof.
  induction a as [|x a IH]; [reflexivity|].
  change (String x ((a ++ b) ++ c) = String x (a ++ (b ++ c))).
  now rewrite IH.
Qed.

(** *** One step at a time *)

Lemma bind_return {A B} (m : M A) (k : A -> M B) w a w' :
  m w = (Return a, w') -> bind m k w = k a w'.
Proof. unfold bind. now intros ->. Qed.

Lemma bind_raise {A B} (m : M A) (k : A -> M B) w e w' :
  m w = (Raise e, w') -> bind m k w = (Raise e, w').
Proof. unfold bind. now intros ->. Qed.

Lemma writable_store p content f q :
  writable (store p content f) q = writable f q.
Proof. reflexivity. Qed.

Lemma open_w_ok p w :
  writable (fs w) p = true ->
  open_w p w = (Return tt, set_fs (store p "" (fs w)) (log (EvWrite p) w)).
Proof.
  intros H. unfold open_w, bind, emit, get_world, put_fs.
  cbn [fs log]. now rewrite H.
Qed.

Lemma write_text_ok p text w :
  writable (fs w) p = true ->
  write_text p (VStr text) w
  = (Return tt, set_fs (store p text (fs w)) (log (EvWrite p) w)).
Proof.
  intros H. unfold write_text.
  rewrite (bind_return _ _ _ _ _ (open_w_ok p w H)).
  unfold file_write, bind, get_world, put_fs, set_fs, store.
  cbn [fs utc trace files dirs]. now rewrite insert_insert_eq.
Qed.

Lemma read_text_ok p raw w :
  files (fs w) !! p = Some raw ->
  utf8_valid raw = true ->
  read_text p w = (Return (universal_newlines raw), log (EvRead p) w).
Proof.
  intros H Hv. unfold read_text, open_read, bind, emit, get_world, ret.
  cbn [fs log]. rewrite H. unfold decode_text. now rewrite Hv.
Qed.

Lemma read_text_undecodable p raw w :
  files (fs w) !! p = Some raw ->
  utf8_valid raw = false ->
  read_text p w = (Raise undecodable, log (EvRead p) w).
Proof.
  intros H Hv. unfold read_text, open_read, bind, emit, get_world, raise.
  cbn [fs log]. rewrite H. unfold decode_text. now rewrite Hv.
Qed.

Lemma path_exists_step p w :
  path_exists p w
  = (Return (is_file (fs w) p || is_dir (fs w) p), log (EvExists p) w).
Proof. reflexivity. Qed.

Lemma utcnow_stamp_step w : utcnow_stamp w = (Return (utc w), log EvClock w).
Proof. reflexivity. Qed.

Lemma makedirs_existing name w :
  name <> "" ->
  is_dir (fs w) name = true ->
  os_makedirs_exist_ok name w = (Return tt, log (EvMakedirs name) w).
Proof.
  intros Hne H. apply String.eqb_neq in Hne.
  unfold os_makedirs_exist_ok, bind, emit, get_world, ret.
  cbn [fs log]. now rewrite Hne, H.
Qed.

(** *** Relations kept along a computation *)

Section Keeps.

Context (R : World -> World -> Prop).
Hypothesis R_refl : forall w, R w w.
Hypothesis R_trans : forall a b c, R a b -> R b c -> R a c.

Lemma keeps_ret {A} (a : A) : keeps R (ret a).
Proof using R_refl. intros w o w' [= <- <-]. apply R_refl. Qed.

Lemma keeps_raise {A} (e : exn) : keeps R (@raise A e).
Proof using R_refl. intros w o w' [= <- <-]. apply R_refl. Qed.

Lemma keeps_get_world : keeps R get_world.
Proof using R_refl. intros w o w' [= <- <-]. apply R_refl. Qed.

Lemma keeps_bind {A B} (m : M A) (k : A -> M B) :
  keeps R m -> (forall a, keeps R (k a)) -> keeps R (bind m k).
Proof using R_trans.
  intros Hm Hk w o w'. unfold bind.
  destruct (m w) as [[a|e] w1] eqn:E.
  - intros H. eapply R_trans; [eapply Hm, E | eapply Hk, H].
  - intros [= <- <-]. eapply Hm, E.
Qed.

Lemma keeps_try {A} (body : M A) (handler : exn -> M A) :
  keeps R body -> (forall e, keeps R (handler e)) ->
  keeps R (try_except body handler).
Proof using R_trans.
  intros Hm Hk w o w'. unfold try_except.
  destruct (body w) as [[a|e] w1] eqn:E.
  - intros [= <- <-]. eapply Hm, E.
  - intros H. eapply R_trans; [eapply Hm, E | eapply Hk, H].
Qed.

Lemma keeps_if {A} (b : bool) (m1 m2 : M A) :
  keeps R m1 -> keeps R m2 -> keeps R (if b then m1 else m2).
Proof. now destruct b. Qed.

End Keeps.

Lemma same_store_refl w : same_store w w.
Proof. reflexivity. Qed.
Lemma same_store_trans a b c : same_store a b -> same_store b c -> same_store a c.
Proof. unfold same_store. congruence. Qed.

Lemma same_spawned_refl w : same_spawned w w.
Proof. reflexivity. Qed.
Lemma same_spawned_trans a b c :
  same_spawned a b -> same_spawned b c -> same_spawned a c.
Proof. unfold same_spawned. congruence. Qed.

Lemma grows_by_refl P w : grows_by P w w.
Proof. split; [reflexivity|]. exists []. now rewrite app_nil_r. Qed.
Lemma grows_by_trans P a b c : grows_by P a b -> grows_by P b c -> grows_by P a c.
Proof.
  intros (Hu1 & e1 & Ht1 & H1) (Hu2 & e2 & Ht2 & H2). split; [congruence|].
  exists (e1 ++ e2)%list. split.
  - now rewrite Ht2, Ht1, app_assoc.
  - now apply Forall_app.
Qed.

Lemma spawned_snoc t ev :
  spawned (t ++ [ev])
  = (spawned t ++ match ev with EvSpawn c => [c] | _ => [] end)%list.
Proof. unfold spawned. rewrite omap_app. now destruct ev. Qed.

Lemma emit_same_store ev : keeps same_store (emit ev).
Proof. intros w o w' [= <- <-]. reflexivity. Qed.

Lemma emit_same_spawned ev :
  (forall c, ev <> EvSpawn c) -> keeps same_spawned (emit ev).
Proof.
  intros Hne w o w' [= <- <-]. unfold same_spawned. cbn [trace log].
  rewrite spawned_snoc. destruct ev; try apply app_nil_r.
  now destruct (Hne cmd).
Qed.

Lemma emit_grows_by (P : event -> Prop) ev : P ev -> keeps (grows_by P) (emit ev).
Proof.
  intros Hev w o w' [= <- <-]. split; [reflexivity|].
  exists [ev]. split; [reflexivity | now constructor].
Qed.

Lemma put_fs_same_spawned f : keeps same_spawned (put_fs f).
Proof. intros w o w' [= <- <-]. reflexivity. Qed.

Lemma put_fs_grows_by P f : keeps (grows_by P) (put_fs f).
Proof.
  intros w o w' [= <- <-]. split; [reflexivity|].
  exists []. cbn [trace set_fs]. now rewrite app_nil_r.
Qed.

(** Breaks a computation into its steps; [prim] closes the steps that
    touch the world. *)
Ltac keeps_with Hrefl Htrans prim :=
  repeat first
    [ prim
    | apply (keeps_ret _ Hrefl)
    | apply (keeps_raise _ Hrefl)
    | apply (keeps_get_world _ Hrefl)
    | apply (keeps_bind _ Htrans); [|intros ?]
    | apply (keeps_try _ Htrans); [|intros ?]
    | match goal with
      | |- keeps _ (if ?b then _ else _) => destruct b
      | |- keeps _ (match ?x with _ => _ end) => destruct x
      end ].

Ltac spawn_free :=
  keeps_with same_spawned_refl same_spawned_trans
    ltac:(first [ apply put_fs_same_spawned
                | apply emit_same_spawned; discriminate ]).

Ltac store_free :=
  keeps_with same_store_refl same_store_trans ltac:(apply emit_same_store).

Lemma os_listdir_same_spawned path : keeps same_spawned (os_listdir path).
Proof. unfold os_listdir, listdir_path. spawn_free. Qed.

Lemma open_read_same_spawned p : keeps same_spawned (open_read p).
Proof. unfold open_read. spawn_free. Qed.

Lemma makedirs_same_spawned name : keeps same_spawned (os_makedirs_exist_ok name).
Proof. unfold os_makedirs_exist_ok. spawn_free. Qed.

Lemma open_w_same_spawned p : keeps same_spawned (open_w p).
Proof. unfold open_w. spawn_free. Qed.

Lemma file_write_same_spawned p data : keeps same_spawned (file_write p data).
Proof. unfold file_write. spawn_free. Qed.

Lemma os_listdir_same_store path : keeps same_store (os_listdir path).
Proof. unfold os_listdir, listdir_path. store_free. Qed.

Lemma open_read_same_store p : keeps same_store (open_read p).
Proof. unfold open_read. store_free. Qed.

Lemma is_json_field (action : dict) k :
  json_action action = true -> is_json (dict_get action k) = true.
Proof.
  unfold json_action, dict_get. induction action as [|[k' v] action IH].
  - reflexivity.
  - cbn [forallb dict_lookup snd]. intros [Hv Hrest]%andb_prop.
    destruct (String.eqb k' k); [exact Hv | now apply IH].
Qed.

Section Properties.

Context (ROOT_DIR : string)
        (realpath : FS -> string -> string)
        (shell : string -> FS -> outcome proc * FS)
        (repr_other : value -> string).

Local Abbreviation guard :=
  (safe_modify_engine_backtest ROOT_DIR realpath shell repr_other).
Local Abbreviation dispatch_with run modify :=
  (dispatch ROOT_DIR run modify realpath shell repr_other).
Local Abbreviation run_batch_with run modify :=
  (run_batch ROOT_DIR run modify realpath shell repr_other).
Local Abbreviation execute_with run modify :=
  (execute_actions ROOT_DIR run modify realpath shell repr_other).
Local Abbreviation engine := (engine_file ROOT_DIR).
Local Abbreviation backup := (backup_path ROOT_DIR).

(** ** Unknown action types *)

Lemma unrecognized_tests (a_type : value) :
  (forall t, In t recognized -> a_type <> VStr t) ->
  eq_str a_type "list_dir" = false /\ eq_str a_type "read_file" = false
  /\ eq_str a_type "write_file" = false
  /\ eq_str a_type "modify_engine" = false
  /\ eq_str a_type "run_command" = false.
Proof.
  intros H. repeat split; apply eq_str_false, H; simpl; tauto.
Qed.

(** C8.  An action whose type is none of the five recognized ones gets
    exactly one result: status [error], the raw action under
    [raw_action]; the world is left as it was, and the loop goes on with
    the rest of the batch. *)
Theorem unknown_action_error_result :
  forall run modify (action : dict) (w : World),
    (forall t, In t recognized -> dict_get action "type" <> VStr t) ->
    exists r,
      dispatch_with run modify action w = (Return r, w)
      /\ dict_lookup r "status" = Some (VStr "error")
      /\ dict_lookup r "raw_action" = Some (VDict action)
      /\ forall rest results,
           run_batch_with run modify (action :: rest) results w
           = run_batch_with run modify rest (results ++ [r]) w.
Proof.
  intros run modify action w H.
  destruct (unrecognized_tests _ H) as (H1 & H2 & H3 & H4 & H5).
  eexists. split; [|split; [|split]].
  - unfold dispatch. rewrite H1, H2, H3, H4, H5. reflexivity.
  - reflexivity.
  - reflexivity.
  - intros rest results. simpl. unfold bind at 1.
    unfold dispatch. rewrite H1, H2, H3, H4, H5. reflexivity.
Qed.

(** ** The protected file through the dispatcher *)

(** Whatever the guard returns has more than two keys, so
    [ok, msg = safe_modify_engine_backtest(...)] cannot succeed. *)
Lemma guard_result_never_unpacks path content w r w' :
  guard path content w = (Return r, w') ->
  exists msg, unpack2 r w' = (Raise (ValueError msg), w').
Proof.
  unfold safe_modify_engine_backtest, bind, ret.
  repeat match goal with
         | |- context [match ?m ?x with pair _ _ => _ end] =>
             destruct (m x) as [[?|?] ?]
         | |- context [if ?b then _ else _] => destruct b
         end;
    intros [= <- <-] || discriminate; eexists; reflexivity.
Qed.

(** No value that [json.loads] returns has a [resolve] method, so the
    guard, called with a decoded [path] field, stops at its first
    line. *)
Lemma resolve_needs_path (v : value) w :
  (forall p, v <> VPath p) ->
  exists msg, resolve realpath v w = (Raise (AttributeError msg), w).
Proof.
  intros H. destruct v; try (eexists; reflexivity).
  now destruct (H p).
Qed.

Lemma modify_engine_dispatch_json run (action : dict) w :
  dict_get action "type" = VStr "modify_engine" ->
  is_json (dict_get action "path") = true ->
  exists msg,
    dispatch_with run true action w
    = (Return [("type", VStr "modify_engine");
               ("path", dict_get action "path");
               ("status", VStr "error");
               ("message", VStr msg)], w).
Proof.
  intros Ht Hj.
  destruct (resolve_needs_path (dict_get action "path") w) as [msg Hm].
  { intros p E. rewrite E in Hj. discriminate. }
  exists msg. unfold dispatch. rewrite Ht.
  cbn [eq_str String.eqb Ascii.eqb Bool.eqb negb].
  unfold try_except, safe_modify_engine_backtest.
  erewrite bind_raise by (erewrite bind_raise by exact Hm; reflexivity).
  reflexivity.
Qed.

(** C9.  With the capability switched on, a [modify_engine] action whose
    [path] is a string, or absent, gets status [error], with neither a
    [backup_path] nor a [stage]; the world is returned untouched, trace
    included: [path.resolve()] fails on a [str] (and on [None]) before
    the guard has asked anything of the operating system. *)
Theorem modify_engine_dispatch_is_error :
  forall run (action : dict) (w : World),
    dict_get action "type" = VStr "modify_engine" ->
    (dict_lookup action "path" = None
     \/ exists s, dict_lookup action "path" = Some (VStr s)) ->
    exists r,
      dispatch_with run true action w = (Return r, w)
      /\ dict_lookup r "status" = Some (VStr "error")
      /\ dict_lookup r "backup_path" = None
      /\ dict_lookup r "stage" = None.
Proof.
  intros run action w Ht Hp.
  unfold dispatch. rewrite Ht. cbn [eq_str String.eqb Ascii.eqb Bool.eqb negb].
  unfold dict_get.
  destruct Hp as [-> | [s ->]]; eexists; (split; [reflexivity|]);
    repeat split; reflexivity.
Qed.

(** ** Commands *)

(** An allowed command reaches [run_command(command, cwd=...)], and
    [run_command] has no parameter [cwd]: the call raises before any
    process is started, and nothing in the handler catches it. *)
Lemma allowed_command_raises modify (action : dict) (raw : string) w :
  dict_get action "type" = VStr "run_command" ->
  dict_lookup action "command" = Some (VStr raw) ->
  strip raw <> "" ->
  existsb (startswith (strip raw)) allowed_prefixes = true ->
  dispatch_with true modify action w
  = (Raise (TypeError "run_command() got an unexpected keyword argument 'cwd'"), w).
Proof.
  intros Ht Hc Hne Hal.
  unfold dispatch. rewrite Ht. cbn [eq_str String.eqb Ascii.eqb Bool.eqb].
  unfold dict_get_default. rewrite Hc.
  unfold bind at 1. cbn [default from_option id call_strip ret].
  apply String.eqb_neq in Hne. rewrite Hne, Hal. reflexivity.
Qed.

(** C5.  The smoke-test command of the specification's own scenario is
    allowed, yet it is never run: the dispatcher raises [TypeError] and
    leaves the world, trace included, as it was. *)
Theorem allowed_command_is_not_run :
  forall modify (w : World),
    dispatch_with true modify
      [("type", VStr "run_command");
       ("command",
        VStr "python engine/backtest.py strategies/example_ma_crossover.py")]
      w
    = (Raise (TypeError "run_command() got an unexpected keyword argument 'cwd'"),
       w).
Proof.
  intros modify w. eapply allowed_command_raises; try reflexivity.
  vm_compute. discriminate.
Qed.

Lemma blocked_message_names_command command :
  occurs_in command (blocked_message command).
Proof.
  assert (Hnil : forall s : string, s ++ "" = s).
  { induction s as [|c s IH]; [reflexivity|].
    change (String c (s ++ "") = String c s). now rewrite IH. }
  unfold occurs_in, blocked_message. rewrite <- !string_app_assoc.
  eexists _, "". rewrite Hnil. reflexivity.
Qed.

Lemma occurs_in_app_r sub s tail : occurs_in sub s -> occurs_in sub (s ++ tail).
Proof.
  intros (a & b & ->). exists a, (b ++ tail).
  now rewrite !string_app_assoc.
Qed.

Lemma blocked_message_lists_prefixes command :
  Forall (fun p => occurs_in p (blocked_message command)) allowed_prefixes.
Proof.
  unfold blocked_message. rewrite <- !string_app_assoc.
  set (head := (_ ++ "Comando solicitado: ")).
  assert (H : Forall (fun p => occurs_in p head) allowed_prefixes).
  { subst head. unfold allowed_prefixes.
    repeat match goal with
           | |- Forall _ (_ :: _) => constructor
           | |- Forall _ [] => constructor
           end; hnf.
    - exists "Comando bloqueado. O driver só permite atualmente:\n- ",
        " ...\n- python engine/backtest.py ...\n- python engine/analyze_runs.py ...\n- python engine/plot_strategy.py ...\n- python engine/optimize_params.py ...\n- pip install -r requirements.txt\nComando solicitado: ".
      reflexivity.
    - exists "Comando bloqueado. O driver só permite atualmente:\n- python engine/fetch_data.py ...\n- ",
        " ...\n- python engine/analyze_runs.py ...\n- python engine/plot_strategy.py ...\n- python engine/optimize_params.py ...\n- pip install -r requirements.txt\nComando solicitado: ".
      reflexivity.
    - exists "Comando bloqueado. O driver só permite atualmente:\n- python engine/fetch_data.py ...\n- python engine/backtest.py ...\n- ",
        " ...\n- python engine/plot_strategy.py ...\n- python engine/optimize_params.py ...\n- pip install -r requirements.txt\nComando solicitado: ".
      reflexivity.
    - exists "Comando bloqueado. O driver só permite atualmente:\n- python engine/fetch_data.py ...\n- python engine/backtest.py ...\n- python engine/analyze_runs.py ...\n- ",
        " ...\n- python engine/optimize_params.py ...\n- pip install -r requirements.txt\nComando solicitado: ".
      reflexivity.
    - exists "Comando bloqueado. O driver só permite atualmente:\n- python engine/fetch_data.py ...\n- python engine/backtest.py ...\n- python engine/analyze_runs.py ...\n- python engine/plot_strategy.py ...\n- ",
        " ...\n- pip install -r requirements.txt\nComando solicitado: ".
      reflexivity.
    - exists "Comando bloqueado. O driver só permite atualmente:\n- python engine/fetch_data.py ...\n- python engine/backtest.py ...\n- python engine/analyze_runs.py ...\n- python engine/plot_strategy.py ...\n- python engine/optimize_params.py ...\n- ",
        "\nComando solicitado: ".
      reflexivity. }
  eapply Forall_impl; [exact H|].
  intros p Hp. now apply occurs_in_app_r.
Qed.

(** C6.  With commands enabled, a command that is not empty once
    trimmed and starts with none of the allowed prefixes is answered
    with status [blocked]; the error text contains the trimmed command
    and every allowed prefix; the world comes back as it was, so its
    trace has no [EvSpawn] that was not there before. *)
Theorem disallowed_command_is_blocked :
  forall modify (action : dict) (raw : string) (w : World),
    dict_get action "type" = VStr "run_command" ->
    dict_lookup action "command" = Some (VStr raw) ->
    strip raw <> "" ->
    (forall p, In p allowed_prefixes -> startswith (strip raw) p = false) ->
    exists r msg,
      dispatch_with true modify action w = (Return r, w)
      /\ dict_lookup r "status" = Some (VStr "blocked")
      /\ dict_lookup r "command" = Some (VStr (strip raw))
      /\ dict_lookup r "error" = Some (VStr msg)
      /\ occurs_in (strip raw) msg
      /\ Forall (fun p => occurs_in p msg) allowed_prefixes.
Proof.
  intros modify action raw w Ht Hc Hne Hno.
  assert (Hal : existsb (startswith (strip raw)) allowed_prefixes = false).
  { apply not_true_is_false. intros E.
    apply existsb_exists in E as (p & Hin & Hp).
    rewrite (Hno p Hin) in Hp. discriminate. }
  exists [("type", VStr "run_command"); ("command", VStr (strip raw));
          ("status", VStr "blocked");
          ("error", VStr (blocked_message (strip raw)))],
         (blocked_message (strip raw)).
  split; [|repeat split].
  - unfold dispatch. rewrite Ht. cbn [eq_str String.eqb Ascii.eqb Bool.eqb].
    unfold dict_get_default. rewrite Hc.
    unfold bind at 1. cbn [default from_option id call_strip ret].
    apply String.eqb_neq in Hne. rewrite Hne, Hal. reflexivity.
  - apply blocked_message_names_command.
  - apply blocked_message_lists_prefixes.
Qed.

(** ** The batch *)

(** Every handler but [run_command]'s ends in a result. *)
Lemma dispatch_returns run modify (action : dict) w :
  dict_get action "type" <> VStr "run_command" ->
  exists r w', dispatch_with run modify action w = (Return r, w').
Proof.
  intros Hne. apply eq_str_false in Hne.
  unfold dispatch. rewrite Hne.
  repeat match goal with
         | |- context [if ?b then _ else _] => destruct b
         end;
    try (unfold ret; eauto; fail);
    unfold try_except, ret;
    match goal with
    | |- context [match ?m w with pair _ _ => _ end] =>
        destruct (m w) as [[?|?] ?]
    end; eauto.
Qed.

(** A batch without [run_command] actions yields one result per action,
    in order. *)
Lemma run_batch_contained run modify (actions : list dict) :
  Forall (fun a => dict_get a "type" <> VStr "run_command") actions ->
  forall results w,
  exists rs w',
    run_batch_with run modify actions results w = (Return (results ++ rs)%list, w')
    /\ length rs = length actions
    /\ Forall2 (fun a r => exists w1 w2,
                  dispatch_with run modify a w1 = (Return r, w2)) actions rs.
Proof.
  induction 1 as [|a actions Ha _ IH]; intros results w.
  - exists [], w. rewrite app_nil_r. repeat split; constructor.
  - destruct (dispatch_returns run modify a w Ha) as (r & w1 & Hr).
    destruct (IH (results ++ [r])%list w1) as (rs & w' & Hrun & Hlen & Hall).
    exists (r :: rs), w'. repeat split.
    + cbn [run_batch]. unfold bind at 1. rewrite Hr, Hrun.
      now rewrite <- app_assoc.
    + simpl. now rewrite Hlen.
    + constructor; eauto.
Qed.

(** C2.  A batch of an allowed command followed by a directory listing:
    the [TypeError] of the first action leaves [execute_actions]; no
    result comes back, and the second action is never run (the trace
    gains no [EvListdir]). *)
Theorem exception_escapes_the_batch :
  forall modify (w : World),
    execute_with true modify
      [ [("type", VStr "run_command");
         ("command", VStr "python engine/analyze_runs.py")];
        [("type", VStr "list_dir"); ("path", VStr ".")] ]
      w
    = (Raise (TypeError "run_command() got an unexpected keyword argument 'cwd'"),
       w).
Proof.
  intros modify w. unfold execute_actions. cbn [run_batch].
  unfold bind at 1. unfold bind at 1.
  rewrite (allowed_command_raises modify _ "python engine/analyze_runs.py");
    try reflexivity.
  vm_compute. discriminate.
Qed.

(** ** Writing files *)


(** A path without a directory part: [os.path.dirname] gives [""], which
    [os.makedirs] refuses, so the file is never opened. *)
Lemma write_file_without_directory run modify (action : dict) (p : string) w :
  dict_get action "type" = VStr "write_file" ->
  dict_lookup action "path" = Some (VStr p) ->
  p <> "" ->
  dirname p = "" ->
  dispatch_with run modify action w
  = (Return [("type", VStr "write_file"); ("path", VStr p);
             ("error", VStr "[Errno 2] No such file or directory: ''")],
     log (EvMakedirs "") w).
Proof.
  intros Ht Hp Hne Hd.
  unfold dispatch. rewrite Ht. cbn [eq_str String.eqb Ascii.eqb Bool.eqb].
  unfold dict_get. rewrite Hp. cbn [default from_option id truthy].
  apply String.eqb_neq in Hne. rewrite Hne. cbn [negb].
  unfold try_except, bind, os_path_dirname, ret. rewrite Hd. reflexivity.
Qed.

(** Into a directory that is there, the write goes through. *)
Lemma write_file_into_directory run modify (action : dict)
    (p content : string) w :
  dict_get action "type" = VStr "write_file" ->
  dict_lookup action "path" = Some (VStr p) ->
  dict_lookup action "content" = Some (VStr content) ->
  dirname p <> "" ->
  is_dir (fs w) (dirname p) = true ->
  is_dir (fs w) p = false ->
  exists w',
    dispatch_with run modify action w
    = (Return [("type", VStr "write_file"); ("path", VStr p);
               ("status", VStr "ok")], w')
    /\ files (fs w') !! p = Some content
    /\ dirs (fs w') = dirs (fs w).
Proof.
  intros Ht Hp Hc Hd Hdir Hnot.
  assert (Hne : p <> "") by (intros ->; apply Hd; reflexivity).
  eexists. split.
  - unfold dispatch. rewrite Ht. cbn [eq_str String.eqb Ascii.eqb Bool.eqb].
    unfold dict_get, dict_get_default. rewrite Hp, Hc.
    cbn [default from_option id truthy].
    apply String.eqb_neq in Hne, Hd. rewrite Hne. cbn [negb].
    assert (Hw : writable (fs (log (EvMakedirs (dirname p)) w)) p = true).
    { unfold writable. cbn [fs log].
      rewrite Hne, Hnot, Hdir. cbn [negb andb]. apply orb_true_r. }
    apply String.eqb_neq in Hd.
    unfold try_except.
    erewrite bind_return by reflexivity.
    erewrite bind_return by (apply makedirs_existing; assumption).
    erewrite bind_return by reflexivity.
    erewrite bind_return by (apply open_w_ok; exact Hw).
    erewrite bind_return by reflexivity.
    reflexivity.
  - split; [apply lookup_insert_eq | reflexivity].
Qed.

(** Directories that are missing are created on the way. *)
Example write_file_creates_directories run modify :
  let out :=
    dispatch_with run modify
      [("type", VStr "write_file"); ("path", VStr "strategies/lab/s1.py");
       ("content", VStr "def run_strategy(df): return df")] bare_world in
  fst out = Return [("type", VStr "write_file");
                    ("path", VStr "strategies/lab/s1.py");
                    ("status", VStr "ok")]
  /\ files (fs (snd out)) !! "strategies/lab/s1.py"
     = Some "def run_strategy(df): return df"
  /\ is_dir (fs (snd out)) "strategies" = true
  /\ is_dir (fs (snd out)) "strategies/lab" = true.
Proof. repeat split; vm_compute; reflexivity. Qed.

(** C7.  Writing ["numpy"] to [requirements.txt], a file the driver's own
    instructions tell the agent to write: the handler answers with an
    error result and the file store is what it was before, whatever the
    world; only the refused [os.makedirs("")] is in the trace. *)
Theorem write_file_bare_name_fails :
  forall run modify (w : World),
    dispatch_with run modify
      [("type", VStr "write_file"); ("path", VStr "requirements.txt");
       ("content", VStr "numpy")] w
    = (Return [("type", VStr "write_file"); ("path", VStr "requirements.txt");
               ("error", VStr "[Errno 2] No such file or directory: ''")],
       mkWorld (fs w) (utc w) (trace w ++ [EvMakedirs ""])).
Proof.
  intros run modify w.
  rewrite (write_file_without_directory run modify _ "requirements.txt");
    [reflexivity | reflexivity | reflexivity | discriminate | reflexivity].
Qed.

(** ** Listing directories *)


(** ** The guarded rewrite of the protected file *)

Lemma backup_is_not_engine ts : backup ts <> engine.
Proof.
  unfold backup_path, engine_file, path_join. intros H.
  do 2 apply (inj (String.app _)) in H.
  vm_compute in H. discriminate H.
Qed.

(** The two resolutions that open the guard. *)
Lemma guard_validate p content w :
  guard (VPath p) content w
  = (if negb (String.eqb (realpath (fs w) p) (realpath (fs w) engine))
     then ret [("type", VStr "write_file"); ("path", VStr p);
               ("status", VStr "blocked");
               ("error", VStr "safe_modify_engine_backtest chamado para arquivo que não é engine/backtest.py.")]
     else
       there <- path_exists engine ;;
       if negb there then
         ret [("type", VStr "write_file"); ("path", VStr engine);
              ("status", VStr "blocked");
              ("error", VStr "engine/backtest.py não encontrado para modificação segura.")]
       else
         original_content <- read_text engine ;;
         ts <- utcnow_stamp ;;
         write_text (backup ts) (VStr original_content) ;;;
         write_text engine content ;;;
         compile_result <- call_run_command shell compile_cmd [] ;;
         if negb (returncode compile_result =? 0) then
           write_text engine (VStr original_content) ;;;
           ret [("type", VStr "write_file"); ("path", VStr engine);
                ("status", VStr "reverted"); ("stage", VStr "compile");
                ("error", VStr "Falha na compilação de engine/backtest.py; restauração do original.");
                ("backup_path", VStr (backup ts));
                ("compile_result", proc_value compile_result)]
         else
           smoke_result <- call_run_command shell smoke_cmd [] ;;
           if negb (returncode smoke_result =? 0) then
             write_text engine (VStr original_content) ;;;
             ret [("type", VStr "write_file"); ("path", VStr engine);
                  ("status", VStr "reverted"); ("stage", VStr "smoke_test");
                  ("error", VStr "Backtest de fumaça falhou; restauração do original.");
                  ("backup_path", VStr (backup ts));
                  ("smoke_result", proc_value smoke_result)]
           else
             ret [("type", VStr "write_file"); ("path", VStr engine);
                  ("status", VStr "ok");
                  ("backup_path", VStr (backup ts));
                  ("compile_result", proc_value compile_result);
                  ("smoke_result", proc_value smoke_result)])
      (log (EvResolve engine) (log (EvResolve p) w)).
Proof. reflexivity. Qed.

Lemma run_command_step cmd w raw f :
  shell cmd (fs w) = (Return raw, f) ->
  decodable raw = true ->
  call_run_command shell cmd [] w
  = (Return (decoded raw), set_fs f (log (EvSpawn cmd) w)).
Proof.
  intros H Hd. apply andb_prop in Hd as [Ho He].
  unfold call_run_command, check_keywords. cbn [List.find].
  unfold run_command, bind, ret, emit, get_world, put_fs.
  cbn [fs log]. rewrite H. unfold decode_text. now rewrite Ho, He.
Qed.

Lemma run_command_garbled cmd w raw f :
  shell cmd (fs w) = (Return raw, f) ->
  decodable raw = false ->
  call_run_command shell cmd [] w
  = (Raise undecodable, set_fs f (log (EvSpawn cmd) w)).
Proof.
  intros H Hd. apply andb_false_iff in Hd.
  unfold call_run_command, check_keywords. cbn [List.find].
  unfold run_command, bind, ret, raise, emit, get_world, put_fs.
  cbn [fs log]. rewrite H. unfold decode_text.
  destruct (utf8_valid (stdout raw)); [|reflexivity].
  destruct Hd as [Hd|Hd]; [discriminate|]. now rewrite Hd.
Qed.

(** A [run_command] that returns has run the command and decoded what
    the process wrote. *)
Lemma run_command_returns cmd w c w' :
  call_run_command shell cmd [] w = (Return c, w') ->
  exists raw f,
    shell cmd (fs w) = (Return raw, f)
    /\ c = decoded raw
    /\ w' = set_fs f (log (EvSpawn cmd) w).
Proof.
  unfold call_run_command, check_keywords. cbn [List.find].
  unfold run_command, bind, ret, raise, emit, get_world, put_fs.
  cbn [fs log].
  destruct (shell cmd (fs w)) as [[raw|e] f]; [|discriminate].
  unfold decode_text.
  destruct (utf8_valid (stdout raw)); [|discriminate].
  destruct (utf8_valid (stderr raw)); [|discriminate].
  intros [= <- <-]. now exists raw, f.
Qed.

(** C4.  The three refusals.  With the capability off, the dispatcher
    answers a [modify_engine] action with status [blocked] without any
    OS call.  The guard answers [blocked] when the path does not resolve
    to the protected file, and when the protected file is not there; in
    both cases the file store is unchanged and the only OS calls are the
    path resolutions and the existence test of the validation itself:
    nothing is opened, listed, created or run. *)
Theorem refused_mutation_touches_nothing :
  forall (w : World),
    (forall run (action : dict),
        dict_get action "type" = VStr "modify_engine" ->
        dispatch_with run false action w
        = (Return [("type", VStr "modify_engine"); ("status", VStr "blocked");
                   ("reason", VStr "ALLOW_MODIFY_ENGINE=False no driver.py")],
           w))
    /\ (forall (p : string) (content : value),
          (realpath (fs w) p <> realpath (fs w) engine
           \/ (is_file (fs w) engine = false /\ is_dir (fs w) engine = false)) ->
          exists r msg w',
            guard (VPath p) content w = (Return r, w')
            /\ dict_lookup r "status" = Some (VStr "blocked")
            /\ dict_lookup r "error" = Some (VStr msg) /\ msg <> ""
            /\ fs w' = fs w
            /\ exists evs, trace w' = (trace w ++ evs)%list
                           /\ forallb is_probe evs = true).
Proof.
  intros w. split.
  - intros run action Ht. unfold dispatch. rewrite Ht. reflexivity.
  - intros p content Hcase. rewrite guard_validate.
    destruct (String.eqb (realpath (fs w) p) (realpath (fs w) engine)) eqn:E.
    + destruct Hcase as [Hne | [Hf Hd]].
      { apply String.eqb_eq in E. contradiction. }
      cbn [negb]. erewrite bind_return by apply path_exists_step.
      cbn [fs log]. rewrite Hf, Hd. cbn [orb negb]. unfold ret.
      do 3 eexists. split; [reflexivity|].
      repeat split; try discriminate.
      exists [EvResolve p; EvResolve engine; EvExists engine].
      cbn [trace log]. split; [now rewrite <- !app_assoc | reflexivity].
    + cbn [negb]. unfold ret.
      do 3 eexists. split; [reflexivity|].
      repeat split; try discriminate.
      exists [EvResolve p; EvResolve engine].
      cbn [trace log]. split; [now rewrite <- !app_assoc | reflexivity].
Qed.

(** The guard up to the compile check: validation passed, the text of
    the original is saved under the backup name, the new content is in
    place. *)
Lemma guard_until_compile p new_content original w c f2 :
  realpath (fs w) p = realpath (fs w) engine ->
  files (fs w) !! engine = Some original ->
  utf8_valid original = true ->
  writable (fs w) engine = true ->
  writable (fs w) (backup (utc w)) = true ->
  shell compile_cmd
    (store engine new_content
       (store (backup (utc w)) (universal_newlines original) (fs w)))
  = (Return c, f2) ->
  decodable c = true ->
  exists w6,
    fs w6 = f2 /\ utc w6 = utc w
    /\ guard (VPath p) (VStr new_content) w
       = (if negb (returncode c =? 0) then
            write_text engine (VStr (universal_newlines original)) ;;;
            ret [("type", VStr "write_file"); ("path", VStr engine);
                 ("status", VStr "reverted"); ("stage", VStr "compile");
                 ("error", VStr "Falha na compilação de engine/backtest.py; restauração do original.");
                 ("backup_path", VStr (backup (utc w)));
                 ("compile_result", proc_value (decoded c))]
          else
            smoke_result <- call_run_command shell smoke_cmd [] ;;
            if negb (returncode smoke_result =? 0) then
              write_text engine (VStr (universal_newlines original)) ;;;
              ret [("type", VStr "write_file"); ("path", VStr engine);
                   ("status", VStr "reverted"); ("stage", VStr "smoke_test");
                   ("error", VStr "Backtest de fumaça falhou; restauração do original.");
                   ("backup_path", VStr (backup (utc w)));
                   ("smoke_result", proc_value smoke_result)]
            else
              ret [("type", VStr "write_file"); ("path", VStr engine);
                   ("status", VStr "ok");
                   ("backup_path", VStr (backup (utc w)));
                   ("compile_result", proc_value (decoded c));
                   ("smoke_result", proc_value smoke_result)]) w6.
Proof.
  intros Hp Hfile Hvalid Hwe Hwb Hc Hdc.
  assert (Hthere : is_file (fs w) engine = true).
  { unfold is_file. apply bool_decide_eq_true. rewrite Hfile. eauto. }
  eexists. split; [|split]; cycle 2.
  - rewrite guard_validate, Hp, String.eqb_refl. cbn [negb].
    erewrite bind_return by apply path_exists_step.
    cbn [fs log]. rewrite Hthere. cbn [orb negb].
    erewrite bind_return
      by (apply read_text_ok; [cbn [fs log]; exact Hfile | exact Hvalid]).
    erewrite bind_return by apply utcnow_stamp_step.
    cbn [utc log].
    erewrite bind_return by (apply write_text_ok; cbn [fs log]; exact Hwb).
    erewrite bind_return
      by (apply write_text_ok; cbn [fs log set_fs]; rewrite writable_store;
          exact Hwe).
    erewrite bind_return
      by (apply run_command_step; [cbn [fs log set_fs]; exact Hc | exact Hdc]).
    reflexivity.
  - reflexivity.
  - reflexivity.
Qed.

(** A [write_text] that returns has stored its text and nothing else. *)
Lemma write_text_returns p text w w' :
  write_text p (VStr text) w = (Return tt, w') ->
  w' = set_fs (store p text (fs w)) (log (EvWrite p) w).
Proof.
  unfold write_text, open_w, file_write, bind, emit, get_world, put_fs, raise.
  cbn [fs log].
  destruct (writable (fs w) p).
  - intros [= <-]. unfold set_fs, store. cbn [fs utc trace files dirs].
    now rewrite insert_insert_eq.
  - repeat match goal with
           | |- context [if ?b then _ else _] => destruct b
           end; discriminate.
Qed.

Lemma write_text_stored p text w w' :
  write_text p (VStr text) w = (Return tt, w') ->
  files (fs w') !! p = Some text.
Proof.
  intros H. apply write_text_returns in H as ->. apply lookup_insert_eq.
Qed.

(** A [write_text] that returns was given a string. *)
Lemma write_text_needs_str p data w w' :
  write_text p data w = (Return tt, w') -> exists text, data = VStr text.
Proof. destruct data; try discriminate. eauto. Qed.

(** A [read_text] that returns has decoded the bytes of the file. *)
Lemma read_text_returns p w text w' :
  read_text p w = (Return text, w') ->
  exists raw,
    files (fs w) !! p = Some raw
    /\ text = universal_newlines raw /\ w' = log (EvRead p) w.
Proof.
  unfold read_text, open_read, bind, emit, get_world, ret, raise.
  cbn [fs log]. destruct (files (fs w) !! p) as [raw|].
  - unfold decode_text. destruct (utf8_valid raw); [|discriminate].
    intros [= <- <-]. now exists raw.
  - destruct (is_dir (fs w) p); discriminate.
Qed.

(** X12.  The postcondition of the protocol, whatever the environment
    does: a call that comes back with status [reverted] comes back with
    the protected file holding the text the guard read from it at the
    start, that is, its bytes with every line end as a line feed. *)
Lemma reverted_means_restored p content original w r w' :
  files (fs w) !! engine = Some original ->
  guard (VPath p) content w = (Return r, w') ->
  dict_lookup r "status" = Some (VStr "reverted") ->
  files (fs w') !! engine = Some (universal_newlines original).
Proof.
  intros Hfile. rewrite guard_validate.
  destruct (negb _); [unfold ret; intros [= <- <-]; discriminate|].
  erewrite bind_return by apply path_exists_step.
  destruct (negb _); [unfold ret; intros [= <- <-]; discriminate|].
  unfold bind at 1.
  destruct (read_text engine _) as [[text|?] w2] eqn:Hread; [|discriminate].
  apply read_text_returns in Hread as (raw & Hraw & -> & ->).
  cbn [fs log] in Hraw. rewrite Hfile in Hraw. injection Hraw as <-.
  erewrite bind_return by apply utcnow_stamp_step.
  unfold bind at 1.
  destruct (write_text (backup _) _ _) as [[[]|?] w4]; [|discriminate].
  unfold bind at 1.
  destruct (write_text engine content w4) as [[[]|?] w5]; [|discriminate].
  unfold bind at 1.
  destruct (call_run_command shell compile_cmd [] w5) as [[c|?] w6];
    [|discriminate].
  destruct (negb (returncode c =? 0)).
  - unfold bind at 1.
    destruct (write_text engine (VStr _) w6) as [[[]|?] w7] eqn:Hw;
      [|discriminate].
    unfold ret. intros [= <- <-] _. eapply write_text_stored, Hw.
  - unfold bind at 1.
    destruct (call_run_command shell smoke_cmd [] w6) as [[s|?] w7];
      [|discriminate].
    destruct (negb (returncode s =? 0)).
    + unfold bind at 1.
      destruct (write_text engine (VStr _) w7) as [[[]|?] w8] eqn:Hw;
        [|discriminate].
      unfold ret. intros [= <- <-] _. eapply write_text_stored, Hw.
    + unfold ret. intros [= <- <-]. discriminate.
Qed.

(** What a failed check leaves behind, stage by stage: the call returns
    status [reverted] with the stage and the backup path, and the
    protected file and the backup both hold the text of the original,
    provided the checks have left the backup in place and the protected
    file writable. *)
Lemma failed_check_restores_text w p new_content original c f2 :
  realpath (fs w) p = realpath (fs w) engine ->
  files (fs w) !! engine = Some original ->
  utf8_valid original = true ->
  writable (fs w) engine = true ->
  writable (fs w) (backup (utc w)) = true ->
  shell compile_cmd
    (store engine new_content
       (store (backup (utc w)) (universal_newlines original) (fs w)))
  = (Return c, f2) ->
  decodable c = true ->
  (returncode c <> 0 ->
   writable f2 engine = true ->
   files f2 !! backup (utc w) = Some (universal_newlines original) ->
   exists r w',
     guard (VPath p) (VStr new_content) w = (Return r, w')
     /\ files (fs w') !! engine = Some (universal_newlines original)
     /\ dict_lookup r "status" = Some (VStr "reverted")
     /\ dict_lookup r "stage" = Some (VStr "compile")
     /\ dict_lookup r "backup_path" = Some (VStr (backup (utc w)))
     /\ files (fs w') !! backup (utc w) = Some (universal_newlines original))
  /\ (returncode c = 0 ->
      forall (s : proc) (f3 : FS),
        shell smoke_cmd f2 = (Return s, f3) ->
        decodable s = true ->
        returncode s <> 0 ->
        writable f3 engine = true ->
        files f3 !! backup (utc w) = Some (universal_newlines original) ->
        exists r w',
          guard (VPath p) (VStr new_content) w = (Return r, w')
          /\ files (fs w') !! engine = Some (universal_newlines original)
          /\ dict_lookup r "status" = Some (VStr "reverted")
          /\ dict_lookup r "stage" = Some (VStr "smoke_test")
          /\ dict_lookup r "backup_path" = Some (VStr (backup (utc w)))
          /\ files (fs w') !! backup (utc w)
             = Some (universal_newlines original)).
Proof.
  intros Hp Hfile Hvalid Hwe Hwb Hc Hdc.
  destruct (guard_until_compile p new_content original w c f2
              Hp Hfile Hvalid Hwe Hwb Hc Hdc)
    as (w6 & Hfs6 & _ & Hguard).
  split.
  - intros Hrc Hw2 Hb2. apply Z.eqb_neq in Hrc.
    rewrite Hguard, Hrc. cbn [negb].
    erewrite bind_return by (apply write_text_ok; rewrite Hfs6; exact Hw2).
    do 2 eexists. split; [reflexivity|].
    cbn [fs set_fs store files]. rewrite Hfs6.
    repeat split.
    + apply lookup_insert_eq.
    + rewrite lookup_insert_ne by (apply not_eq_sym, backup_is_not_engine).
      exact Hb2.
  - intros Hrc s f3 Hs Hds Hrs Hw3 Hb3.
    apply Z.eqb_eq in Hrc. apply Z.eqb_neq in Hrs.
    rewrite Hguard, Hrc. cbn [negb].
    erewrite bind_return
      by (apply run_command_step; [rewrite Hfs6; exact Hs | exact Hds]).
    cbn [returncode decoded]. rewrite Hrs. cbn [negb].
    erewrite bind_return
      by (apply write_text_ok; cbn [fs set_fs]; exact Hw3).
    do 2 eexists. split; [reflexivity|].
    cbn [fs set_fs store files].
    repeat split.
    + apply lookup_insert_eq.
    + rewrite lookup_insert_ne by (apply not_eq_sym, backup_is_not_engine).
      exact Hb3.
Qed.

(** C3.  The guard is called for the protected file, which exists and
    holds text; the engine directory takes the two writes; the proposed
    content is text.  Both checks run to their end, exit zero and write
    text to their output streams, and they leave the protected file as
    the guard wrote it.  Then the call returns status [ok] with the
    backup path and what both checks wrote and returned, and the
    protected file holds the proposed content. *)
Theorem passing_checks_commit_content :
  forall (w : World) (p new_content original : string)
         (c s : proc) (f2 f3 : FS),
    realpath (fs w) p = realpath (fs w) engine ->
    files (fs w) !! engine = Some original ->
    utf8_valid original = true ->
    utf8_valid new_content = true ->
    writable (fs w) engine = true ->
    writable (fs w) (backup (utc w)) = true ->
    shell compile_cmd
      (store engine new_content
         (store (backup (utc w)) (universal_newlines original) (fs w)))
    = (Return c, f2) ->
    returncode c = 0 ->
    decodable c = true ->
    shell smoke_cmd f2 = (Return s, f3) ->
    returncode s = 0 ->
    decodable s = true ->
    files f3 !! engine
    = files (store engine new_content
               (store (backup (utc w)) (universal_newlines original) (fs w)))
        !! engine ->
    exists r w',
      guard (VPath p) (VStr new_content) w = (Return r, w')
      /\ fs w' = f3
      /\ files (fs w') !! engine = Some new_content
      /\ dict_lookup r "status" = Some (VStr "ok")
      /\ dict_lookup r "backup_path" = Some (VStr (backup (utc w)))
      /\ dict_lookup r "compile_result"
         = Some (VDict [("stdout", VStr (universal_newlines (stdout c)));
                        ("stderr", VStr (universal_newlines (stderr c)));
                        ("returncode", VInt (returncode c))])
      /\ dict_lookup r "smoke_result"
         = Some (VDict [("stdout", VStr (universal_newlines (stdout s)));
                        ("stderr", VStr (universal_newlines (stderr s)));
                        ("returncode", VInt (returncode s))]).
Proof.
  intros w p new_content original c s f2 f3
         Hp Hfile Hvalid _ Hwe Hwb Hc Hrc Hdc Hs Hrs Hds Hkeep.
  destruct (guard_until_compile p new_content original w c f2
              Hp Hfile Hvalid Hwe Hwb Hc Hdc)
    as (w6 & Hfs6 & _ & Hguard).
  apply Z.eqb_eq in Hrc, Hrs.
  rewrite Hguard, Hrc. cbn [negb].
  erewrite bind_return
    by (apply run_command_step; [rewrite Hfs6; exact Hs | exact Hds]).
  cbn [returncode decoded]. rewrite Hrs. cbn [negb]. unfold ret.
  do 2 eexists. split; [reflexivity|].
  cbn [fs set_fs]. repeat split.
  rewrite Hkeep. apply lookup_insert_eq.
Qed.

(** ** Which actions end the batch *)

Lemma answers_length step actions w rs w' :
  answers step actions w rs w' -> length rs = length actions.
Proof. induction 1; simpl; congruence. Qed.

Lemma eq_str_neq v s : eq_str v s = false -> v <> VStr s.
Proof. intros E H. apply eq_str_true in H. congruence. Qed.

(** The [run_command] handler, by the shape of its [command]. *)
Lemma run_command_handler run modify (action : dict) w :
  dict_get action "type" = VStr "run_command" ->
  dispatch_with run modify action w
  = (command <- call_strip (dict_get_default action "command" (VStr "")) ;;
     if String.eqb command "" then
       ret [("type", VStr "run_command"); ("status", VStr "error");
            ("error", VStr "empty command")]
     else if negb run then
       ret [("type", VStr "run_command"); ("command", VStr command);
            ("status", VStr "blocked");
            ("error", VStr "Execução de comandos desativada (ALLOW_RUN_COMMANDS=False).")]
     else if negb (existsb (startswith command) allowed_prefixes) then
       ret [("type", VStr "run_command"); ("command", VStr command);
            ("status", VStr "blocked");
            ("error", VStr (blocked_message command))]
     else
       raise (TypeError "run_command() got an unexpected keyword argument 'cwd'"))
    w.
Proof.
  intros Ht. unfold dispatch. rewrite Ht.
  cbn [eq_str String.eqb Ascii.eqb Bool.eqb].
  unfold bind. destruct (call_strip _ w) as [[command|e] w1]; [|reflexivity].
  repeat match goal with
         | |- context [if ?b then _ else _] => destruct b
         end; reflexivity.
Qed.

Lemma escaping_action_raises run modify (action : dict) w :
  escapes run action = true ->
  exists e, dispatch_with run modify action w = (Raise e, w).
Proof.
  unfold escapes. intros [Ht Hc]%andb_prop.
  apply eq_str_true in Ht. rewrite run_command_handler by exact Ht.
  unfold bind, call_strip.
  destruct (dict_get_default action "command" (VStr ""));
    try (eexists; reflexivity).
  apply andb_prop in Hc as [[Hne Hrun]%andb_prop Hal].
  cbn [ret]. apply negb_true_iff in Hne. rewrite Hne, Hrun, Hal.
  eexists; reflexivity.
Qed.

Lemma tame_action_returns run modify (action : dict) w :
  escapes run action = false ->
  exists r w', dispatch_with run modify action w = (Return r, w').
Proof.
  unfold escapes.
  destruct (eq_str (dict_get action "type") "run_command") eqn:Ht.
  - apply eq_str_true in Ht. rewrite run_command_handler by exact Ht.
    cbn [andb]. unfold bind, call_strip.
    destruct (dict_get_default action "command" (VStr "")); try discriminate.
    cbn [ret]. destruct (String.eqb (strip s) ""); cbn [negb andb].
    { intros _. do 2 eexists; reflexivity. }
    destruct run; cbn [negb andb]; [|intros _; do 2 eexists; reflexivity].
    intros ->. do 2 eexists; reflexivity.
  - intros _. apply dispatch_returns. now apply eq_str_neq.
Qed.

(** X1.  What decides whether the loop survives an action: the handler
    raises, leaving the world as it found it, exactly for the actions
    [escapes] describes; for every other action, of whatever type and
    with whatever fields, it returns a result. *)
Theorem dispatch_raises_exactly_when_escapes :
  forall run modify (action : dict) (w : World),
    if escapes run action
    then exists e, dispatch_with run modify action w = (Raise e, w)
    else exists r w', dispatch_with run modify action w = (Return r, w').
Proof.
  intros run modify action w.
  destruct (escapes run action) eqn:E.
  - now apply escaping_action_raises.
  - now apply tame_action_returns.
Qed.

Lemma run_batch_answers run modify (actions : list dict) :
  Forall (fun a => escapes run a = false) actions ->
  forall results w,
  exists rs w',
    run_batch_with run modify actions results w
    = (Return (results ++ rs)%list, w')
    /\ answers (fun a => dispatch_with run modify a) actions w rs w'.
Proof.
  induction 1 as [|a actions Ha _ IH]; intros results w.
  - exists [], w. rewrite app_nil_r. split; [reflexivity | constructor].
  - destruct (tame_action_returns run modify a w Ha) as (r & w1 & Hr).
    destruct (IH (results ++ [r])%list w1) as (rs & w' & Hrun & Hans).
    exists (r :: rs), w'. split.
    + cbn [run_batch]. rewrite (bind_return _ _ _ _ _ Hr), Hrun.
      now rewrite <- app_assoc.
    + econstructor; eassumption.
Qed.

(** X2.  A batch none of whose actions escapes is answered in full:
    [execute_actions] returns [{"results": rs}] where [rs] holds the
    result of each action in order, every action having run in the
    world its predecessor left; so [len(rs) == len(actions)]. *)
Theorem tame_batch_is_answered_in_order :
  forall run modify (actions : list dict) (w : World),
    Forall (fun a => escapes run a = false) actions ->
    exists rs w',
      execute_with run modify actions w
      = (Return [("results", VList (map VDict rs))], w')
      /\ answers (fun a => dispatch_with run modify a) actions w rs w'
      /\ length rs = length actions.
Proof.
  intros run modify actions w Htame.
  destruct (run_batch_answers run modify actions Htame [] w)
    as (rs & w' & Hrun & Hans).
  exists rs, w'. split; [|split].
  - unfold execute_actions. now rewrite (bind_return _ _ _ _ _ Hrun).
  - exact Hans.
  - eapply answers_length, Hans.
Qed.

(** X3.  No batch is atomic.  When the first escaping action comes
    after actions that do not escape, [execute_actions] raises, and the
    world it leaves is the one those earlier actions produced: their
    effects stay, their results are lost, the later actions never
    run. *)
Theorem aborted_batch_keeps_earlier_effects :
  forall run modify (before : list dict) (bad : dict) (after : list dict)
         (w : World),
    Forall (fun a => escapes run a = false) before ->
    escapes run bad = true ->
    exists rs w1 e,
      answers (fun a => dispatch_with run modify a) before w rs w1
      /\ execute_with run modify (before ++ bad :: after) w = (Raise e, w1).
Proof.
  intros run modify before bad after w Htame Hbad.
  assert (Hgen : forall results w0,
            exists rs w1 e,
              answers (fun a => dispatch_with run modify a) before w0 rs w1
              /\ run_batch_with run modify (before ++ bad :: after) results w0
                 = (Raise e, w1)).
  { induction Htame as [|a before Ha _ IH]; intros results w0.
    - destruct (escaping_action_raises run modify bad w0 Hbad) as [e He].
      exists [], w0, e. split; [constructor|].
      cbn [app run_batch]. now rewrite (bind_raise _ _ _ _ _ He).
    - destruct (tame_action_returns run modify a w0 Ha) as (r & w1 & Hr).
      destruct (IH (results ++ [r])%list w1) as (rs & w2 & e & Hans & Hrun).
      exists (r :: rs), w2, e. split; [econstructor; eassumption|].
      cbn [app run_batch]. now rewrite (bind_return _ _ _ _ _ Hr). }
  destruct (Hgen [] w) as (rs & w1 & e & Hans & Hrun).
  exists rs, w1, e. split; [exact Hans|].
  unfold execute_actions. now rewrite (bind_raise _ _ _ _ _ Hrun).
Qed.

(** ** What a batch never does *)

Lemma run_command_keeps_world run modify (action : dict) w o w' :
  dict_get action "type" = VStr "run_command" ->
  dispatch_with run modify action w = (o, w') -> w' = w.
Proof.
  intros Ht. rewrite run_command_handler by exact Ht.
  unfold bind, call_strip, ret, raise.
  destruct (dict_get_default action "command" (VStr ""));
    try (intros [= <- <-]; reflexivity).
  repeat match goal with
         | |- context [if ?b then _ else _] => destruct b
         end; intros [= <- <-]; reflexivity.
Qed.

Lemma dispatch_json_same_spawned run modify (action : dict) :
  json_action action = true ->
  keeps same_spawned (fun w => dispatch_with run modify action w).
Proof.
  intros Hj.
  destruct (eq_str (dict_get action "type") "run_command") eqn:Hrun.
  { apply eq_str_true in Hrun. intros w o w' H.
    apply run_command_keeps_world in H; [subst; reflexivity | exact Hrun]. }
  destruct (eq_str (dict_get action "type") "modify_engine") eqn:Hmod.
  { apply eq_str_true in Hmod. intros w o w'. destruct modify.
    - destruct (modify_engine_dispatch_json run action w Hmod
                  (is_json_field action "path" Hj)) as [msg ->].
      intros [= <- <-]. reflexivity.
    - unfold dispatch. rewrite Hmod. intros [= <- <-]. reflexivity. }
  unfold dispatch. rewrite Hrun, Hmod.
  repeat match goal with
         | |- keeps _ (fun w => (if ?b then _ else _) w) => destruct b
         end;
    unfold fspath, os_path_dirname;
    keeps_with same_spawned_refl same_spawned_trans
      ltac:(first [ apply os_listdir_same_spawned
                  | apply open_read_same_spawned
                  | apply makedirs_same_spawned
                  | apply open_w_same_spawned
                  | apply file_write_same_spawned ]).
Qed.

Lemma run_batch_keeps (R : World -> World -> Prop) run modify
    (actions : list dict) :
  (forall w, R w w) ->
  (forall a b c, R a b -> R b c -> R a c) ->
  Forall (fun a => keeps R (fun w => dispatch_with run modify a w)) actions ->
  forall results, keeps R (run_batch_with run modify actions results).
Proof.
  intros Hrefl Htrans. induction 1 as [|a actions Ha _ IH]; intros results.
  - apply (keeps_ret _ Hrefl).
  - cbn [run_batch]. apply (keeps_bind _ Htrans); [exact Ha|].
    intros r. apply IH.
Qed.

(** X4.  Whatever the two switches say, a batch of decoded actions
    starts no process: the commands in the trace after
    [execute_actions], returned or raised, are those that were in it
    before. *)
Theorem json_batch_starts_no_process :
  forall run modify (actions : list dict) (w : World) o w',
    Forall (fun a => json_action a = true) actions ->
    execute_with run modify actions w = (o, w') ->
    spawned (trace w') = spawned (trace w).
Proof.
  intros run modify actions w o w' Hj H.
  enough (K : keeps same_spawned (execute_with run modify actions))
    by exact (K w o w' H).
  unfold execute_actions.
  apply (keeps_bind _ same_spawned_trans).
  - apply run_batch_keeps;
      [apply same_spawned_refl | apply same_spawned_trans |].
    eapply Forall_impl; [exact Hj|].
    intros a Ha. now apply dispatch_json_same_spawned.
  - intros rs. apply (keeps_ret _ same_spawned_refl).
Qed.

Lemma dispatch_json_same_store run modify (action : dict) :
  json_action action = true ->
  dict_get action "type" <> VStr "write_file" ->
  keeps same_store (fun w => dispatch_with run modify action w).
Proof.
  intros Hj Hwrite. apply eq_str_false in Hwrite.
  destruct (eq_str (dict_get action "type") "run_command") eqn:Hrun.
  { apply eq_str_true in Hrun. intros w o w' H.
    apply run_command_keeps_world in H; [subst; reflexivity | exact Hrun]. }
  destruct (eq_str (dict_get action "type") "modify_engine") eqn:Hmod.
  { apply eq_str_true in Hmod. intros w o w'. destruct modify.
    - destruct (modify_engine_dispatch_json run action w Hmod
                  (is_json_field action "path" Hj)) as [msg ->].
      intros [= <- <-]. reflexivity.
    - unfold dispatch. rewrite Hmod. intros [= <- <-]. reflexivity. }
  unfold dispatch. rewrite Hrun, Hmod, Hwrite.
  repeat match goal with
         | |- keeps _ (fun w => (if ?b then _ else _) w) => destruct b
         end;
    unfold fspath;
    keeps_with same_store_refl same_store_trans
      ltac:(first [ apply os_listdir_same_store
                  | apply open_read_same_store ]).
Qed.

(** X5.  Of the decoded actions only [write_file] can change the file
    store: after a batch without one, returned or raised, every file
    and directory is as it was. *)
Theorem only_write_file_changes_the_store :
  forall run modify (actions : list dict) (w : World) o w',
    Forall (fun a => json_action a = true
                     /\ dict_get a "type" <> VStr "write_file") actions ->
    execute_with run modify actions w = (o, w') ->
    fs w' = fs w.
Proof.
  intros run modify actions w o w' Hj H.
  enough (K : keeps same_store (execute_with run modify actions))
    by exact (K w o w' H).
  unfold execute_actions.
  apply (keeps_bind _ same_store_trans).
  - apply run_batch_keeps; [apply same_store_refl | apply same_store_trans |].
    eapply Forall_impl; [exact Hj|].
    intros a [Ha Hw]. now apply dispatch_json_same_store.
  - intros rs. apply (keeps_ret _ same_store_refl).
Qed.

(** ** More on single actions *)

(** X6.  [write_file] applies no policy to its path.  In a store kept
    under canonical paths, into a directory that exists, any canonical
    path that is not itself a directory is overwritten with the content,
    a text: the only OS calls are the [makedirs] and the opening of that
    one file, so nothing is backed up, checked or run, whichever file it
    is. *)
Theorem write_file_overwrites_any_path :
  forall run modify (action : dict) (p content : string) (w : World),
    dict_get action "type" = VStr "write_file" ->
    dict_lookup action "path" = Some (VStr p) ->
    dict_lookup action "content" = Some (VStr content) ->
    utf8_valid content = true ->
    tidy (fs w) = true ->
    canonical p = true ->
    dirname p <> "" ->
    is_dir (fs w) (dirname p) = true ->
    is_dir (fs w) p = false ->
    dispatch_with run modify action w
    = (Return [("type", VStr "write_file"); ("path", VStr p);
               ("status", VStr "ok")],
       mkWorld (store p content (fs w)) (utc w)
               (trace w ++ [EvMakedirs (dirname p); EvWrite p])).
Proof.
  intros run modify action p content w Ht Hp Hc _ _ _ Hd Hdir Hnot.
  assert (Hne : p <> "") by (intros ->; apply Hd; reflexivity).
  assert (Hw : writable (fs (log (EvMakedirs (dirname p)) w)) p = true).
  { unfold writable. cbn [fs log]. apply String.eqb_neq in Hne.
    rewrite Hne, Hnot, Hdir. cbn [negb andb]. apply orb_true_r. }
  unfold dispatch. rewrite Ht. cbn [eq_str String.eqb Ascii.eqb Bool.eqb].
  unfold dict_get, dict_get_default. rewrite Hp, Hc.
  cbn [default from_option id truthy].
  apply String.eqb_neq in Hne. rewrite Hne. cbn [negb].
  unfold try_except.
  erewrite bind_return by reflexivity.
  erewrite bind_return by (apply makedirs_existing; assumption).
  erewrite bind_return by reflexivity.
  erewrite bind_return by (apply open_w_ok; exact Hw).
  unfold file_write, get_world, put_fs, ret, set_fs, log, store.
  unfold bind. cbv beta iota zeta. cbn [fs utc trace files dirs].
  now rewrite insert_insert_eq, <- app_assoc.
Qed.

(** X7.  Content that is not a string costs the file its text.  The
    handler opens the file for writing, which empties it, before
    [f.write] refuses the content: the result is an error that names
    the type of the content ([None] by its own name), and the file, a
    canonical path in a directory that exists, is left empty, whatever
    it held. *)
Theorem write_file_bad_content_empties_file :
  forall run modify (action : dict) (p : string) (content : value) (w : World),
    dict_get action "type" = VStr "write_file" ->
    dict_lookup action "path" = Some (VStr p) ->
    dict_lookup action "content" = Some content ->
    (forall text, content <> VStr text) ->
    tidy (fs w) = true ->
    canonical p = true ->
    dirname p <> "" ->
    is_dir (fs w) (dirname p) = true ->
    is_dir (fs w) p = false ->
    exists w',
      dispatch_with run modify action w
      = (Return [("type", VStr "write_file"); ("path", VStr p);
                 ("error", VStr ("write() argument must be str, not "
                                 ++ match content with
                                    | VNone => "None"
                                    | _ => type_name content
                                    end))], w')
      /\ files (fs w') !! p = Some ""
      /\ (forall q, q <> p -> files (fs w') !! q = files (fs w) !! q)
      /\ dirs (fs w') = dirs (fs w).
Proof.
  intros run modify action p content w Ht Hp Hc Hns _ _ Hd Hdir Hnot.
  assert (Hne : p <> "") by (intros ->; apply Hd; reflexivity).
  assert (Hw : writable (fs (log (EvMakedirs (dirname p)) w)) p = true).
  { unfold writable. cbn [fs log]. apply String.eqb_neq in Hne.
    rewrite Hne, Hnot, Hdir. cbn [negb andb]. apply orb_true_r. }
  eexists. split; [|split; [|split]].
  - unfold dispatch. rewrite Ht. cbn [eq_str String.eqb Ascii.eqb Bool.eqb].
    unfold dict_get, dict_get_default. rewrite Hp, Hc.
    cbn [default from_option id truthy].
    apply String.eqb_neq in Hne. rewrite Hne. cbn [negb].
    unfold try_except.
    erewrite bind_return by reflexivity.
    erewrite bind_return by (apply makedirs_existing; assumption).
    erewrite bind_return by reflexivity.
    erewrite bind_return by (apply open_w_ok; exact Hw).
    unfold bind, file_write.
    destruct content as [| | | |text| | |]; try reflexivity.
    now destruct (Hns text).
  - cbn [fs set_fs store files]. apply lookup_insert_eq.
  - intros q Hq. cbn [fs set_fs store files log].
    now apply lookup_insert_ne, not_eq_sym.
  - reflexivity.
Qed.

Lemma string_prefix_iff (p s : string) :
  String.prefix p s = true <-> exists rest, s = p ++ rest.
Proof.
  revert s. induction p as [|c p IH]; intros s.
  - split; [intros _; exists s; reflexivity | intros _; now destruct s].
  - destruct s as [|d s].
    + split; [discriminate | intros [rest H]; discriminate H].
    + cbn [String.prefix]. destruct (ascii_dec c d) as [->|Hne].
      * rewrite IH. split; intros [rest H]; exists rest.
        -- change (String d s = String d (p ++ rest)). now rewrite H.
        -- change (String d s = String d (p ++ rest)) in H. now injection H.
      * split; [discriminate|]. intros [rest H].
        change (String d s = String c (p ++ rest)) in H.
        injection H as H1 _. congruence.
Qed.

Lemma allowed_prefix_iff (command : string) :
  existsb (startswith command) allowed_prefixes = true
  <-> exists p rest, In p allowed_prefixes /\ command = p ++ rest.
Proof.
  rewrite existsb_exists. unfold startswith. split.
  - intros (p & Hin & Hp). apply string_prefix_iff in Hp as [rest ->].
    now exists p, rest.
  - intros (p & rest & Hin & ->). exists p. split; [exact Hin|].
    apply string_prefix_iff. now exists rest.
Qed.

(** X8.  The whitelist looks at the beginning of the command and at
    nothing else.  With commands enabled, the dispatcher answers a
    [run_command] action whose command is a string, not blank, with a
    [blocked] result exactly when the command, white space at its ends
    removed, is not one of the six allowed prefixes followed by any
    text at all; the world is not touched. *)
Theorem whitelist_is_a_prefix_test :
  forall modify (action : dict) (raw : string) (w : World),
    dict_get action "type" = VStr "run_command" ->
    dict_lookup action "command" = Some (VStr raw) ->
    strip raw <> "" ->
    (exists r,
       dispatch_with true modify action w = (Return r, w)
       /\ dict_lookup r "status" = Some (VStr "blocked")
       /\ dict_lookup r "command" = Some (VStr (strip raw)))
    <-> ~ exists p rest,
            In p [ "python engine/fetch_data.py";
                   "python engine/backtest.py";
                   "python engine/analyze_runs.py";
                   "python engine/plot_strategy.py";
                   "python engine/optimize_params.py";
                   "pip install -r requirements.txt" ]
            /\ strip raw = p ++ rest.
Proof.
  intros modify action raw w Ht Hc Hne.
  rewrite run_command_handler by exact Ht. unfold dict_get_default.
  rewrite Hc. cbn [default from_option id]. unfold bind, call_strip, ret.
  apply String.eqb_neq in Hne. rewrite Hne. cbn [negb].
  destruct (existsb (startswith (strip raw)) allowed_prefixes) eqn:Hal.
  - cbn [negb]. split; [intros (r & H & _); discriminate|].
    intros Hno. destruct Hno. apply allowed_prefix_iff, Hal.
  - cbn [negb]. split.
    + intros _ Hex. apply allowed_prefix_iff in Hex. congruence.
    + intros _. eexists. split; [reflexivity|]. split; reflexivity.
Qed.

(** X9.  A [run_command] action without a [command], or whose command is
    only white space, is answered with the [empty command] error,
    whatever the switches; the world is not touched. *)
Theorem blank_command_is_an_error :
  forall run modify (action : dict) (w : World),
    dict_get action "type" = VStr "run_command" ->
    (dict_lookup action "command" = None
     \/ exists raw, dict_lookup action "command" = Some (VStr raw)
                    /\ strip raw = "") ->
    dispatch_with run modify action w
    = (Return [("type", VStr "run_command"); ("status", VStr "error");
               ("error", VStr "empty command")], w).
Proof.
  intros run modify action w Ht Hc.
  rewrite run_command_handler by exact Ht. unfold dict_get_default.
  destruct Hc as [-> | (raw & -> & Hraw)];
    cbn [default from_option id]; unfold bind, call_strip, ret.
  - reflexivity.
  - now rewrite Hraw.
Qed.

(** X10.  With [ALLOW_RUN_COMMANDS] off, every command that is not blank
    is answered with status [blocked], allowed prefix or not, and the
    world is not touched. *)
Theorem disabled_commands_are_blocked :
  forall modify (action : dict) (raw : string) (w : World),
    dict_get action "type" = VStr "run_command" ->
    dict_lookup action "command" = Some (VStr raw) ->
    strip raw <> "" ->
    dispatch_with false modify action w
    = (Return [("type", VStr "run_command"); ("command", VStr (strip raw));
               ("status", VStr "blocked");
               ("error", VStr "Execução de comandos desativada (ALLOW_RUN_COMMANDS=False).")],
       w).
Proof.
  intros modify action raw w Ht Hc Hne.
  rewrite run_command_handler by exact Ht. unfold dict_get_default.
  rewrite Hc. cbn [default from_option id]. unfold bind, call_strip, ret.
  apply String.eqb_neq in Hne. now rewrite Hne.
Qed.

(** X11.  With the capability on, the dispatcher never reports a
    [modify_engine] action as anything but an error: whatever [path] is
    and whatever the guard did or returned, unpacking its result fails
    and the handler answers with status [error]. *)
Theorem modify_engine_is_never_ok :
  forall run (action : dict) (w : World),
    dict_get action "type" = VStr "modify_engine" ->
    exists r w',
      dispatch_with run true action w = (Return r, w')
      /\ dict_lookup r "status" = Some (VStr "error").
Proof.
  intros run action w Ht.
  unfold dispatch. rewrite Ht.
  cbn [eq_str String.eqb Ascii.eqb Bool.eqb negb].
  unfold try_except, bind at 1.
  destruct (guard (dict_get action "path")
              (dict_get_default action "content" (VStr "")) w)
    as [[r|e] w1] eqn:Hg.
  - destruct (guard_result_never_unpacks _ _ _ _ _ Hg) as [msg Hu].
    rewrite (bind_raise _ _ _ _ _ Hu). do 2 eexists. split; reflexivity.
  - do 2 eexists. split; reflexivity.
Qed.

(** ** More on the guard *)

Lemma write_text_refused p text w :
  writable (fs w) p = false ->
  exists e, write_text p (VStr text) w = (Raise e, log (EvWrite p) w).
Proof.
  intros H. unfold write_text, open_w, bind, emit, get_world, raise.
  cbn [fs log]. rewrite H.
  repeat match goal with
         | |- context [if ?b then _ else _] => destruct b
         end; eexists; reflexivity.
Qed.

(** X13.  The backup comes first.  If the backup file cannot be
    written, the guard raises and has changed nothing: the protected
    file keeps its text, no other file is touched and no check is
    run. *)
Theorem failed_backup_leaves_everything :
  forall (w : World) (p : string) (new_content : value) (original : string),
    realpath (fs w) p = realpath (fs w) engine ->
    files (fs w) !! engine = Some original ->
    writable (fs w) (backup (utc w)) = false ->
    exists e w',
      guard (VPath p) new_content w = (Raise e, w')
      /\ fs w' = fs w
      /\ spawned (trace w') = spawned (trace w).
Proof.
  intros w p new_content original Hp Hfile Hwb.
  assert (Hthere : is_file (fs w) engine = true).
  { unfold is_file. apply bool_decide_eq_true. rewrite Hfile. eauto. }
  destruct (utf8_valid original) eqn:Hvalid.
  - destruct (write_text_refused (backup (utc w)) (universal_newlines original)
                (log EvClock (log (EvRead engine) (log (EvExists engine)
                   (log (EvResolve engine) (log (EvResolve p) w)))))
                Hwb) as [e He].
    exists e. eexists. split; [|split].
    + rewrite guard_validate, Hp, String.eqb_refl. cbn [negb].
      erewrite bind_return by apply path_exists_step.
      cbn [fs log]. rewrite Hthere. cbn [orb negb].
      erewrite bind_return
        by (apply read_text_ok; [cbn [fs log]; exact Hfile | exact Hvalid]).
      erewrite bind_return by apply utcnow_stamp_step.
      cbn [utc log].
      erewrite bind_raise by exact He. reflexivity.
    + reflexivity.
    + cbn [trace log]. now rewrite !spawned_snoc, !app_nil_r.
  - exists undecodable. eexists. split; [|split].
    + rewrite guard_validate, Hp, String.eqb_refl. cbn [negb].
      erewrite bind_return by apply path_exists_step.
      cbn [fs log]. rewrite Hthere. cbn [orb negb].
      erewrite bind_raise
        by (apply (read_text_undecodable _ original);
            [cbn [fs log]; exact Hfile | exact Hvalid]).
      reflexivity.
    + reflexivity.
    + cbn [trace log]. now rewrite !spawned_snoc, !app_nil_r.
Qed.

Lemma run_command_grows_by (P : event -> Prop) cmd :
  P (EvSpawn cmd) -> keeps (grows_by P) (call_run_command shell cmd []).
Proof.
  intros HP. unfold call_run_command, check_keywords. cbn [List.find].
  unfold run_command.
  keeps_with (grows_by_refl P) (grows_by_trans P)
    ltac:(first [ apply put_fs_grows_by | apply emit_grows_by; exact HP ]).
Qed.

Lemma write_text_grows_by (P : event -> Prop) p data :
  P (EvWrite p) -> keeps (grows_by P) (write_text p data).
Proof.
  intros HP. unfold write_text, open_w, file_write.
  keeps_with (grows_by_refl P) (grows_by_trans P)
    ltac:(first [ apply put_fs_grows_by | apply emit_grows_by; exact HP ]).
Qed.

(** X14.  What the guard asks of the operating system, on every path
    through it, returned or raised: path resolutions, the existence
    test and the read of the protected file, the clock, writes to the
    protected file and to the one backup file of this call, and the
    two check commands.  It lists and creates no directory, and opens
    no other file. *)
Theorem guard_footprint :
  forall (path content : value) (w : World) o w',
    guard path content w = (o, w') ->
    grows_by (guard_event ROOT_DIR (utc w)) w w'.
Proof.
  intros path content w o w'.
  set (P := guard_event ROOT_DIR (utc w)).
  destruct path as [| | | | | | |p];
    try (intros [= <- <-]; apply grows_by_refl).
  rewrite guard_validate.
  set (w0 := log (EvResolve engine) (log (EvResolve p) w)).
  assert (H0 : grows_by P w w0).
  { split; [reflexivity|]. exists [EvResolve p; EvResolve engine].
    split; [subst w0; cbn [trace log]; now rewrite <- app_assoc|].
    repeat constructor. }
  assert (Hu0 : utc w0 = utc w) by reflexivity.
  intros H. eapply grows_by_trans; [exact H0|].
  revert Hu0 H. generalize w0. clear H0 w0. intros w0 Hu0.
  destruct (negb (String.eqb _ _));
    [intros [= <- <-]; apply grows_by_refl|].
  rewrite (bind_return _ _ _ _ _ (path_exists_step engine w0)).
  set (w1 := log (EvExists engine) w0).
  assert (H1 : grows_by P w0 w1).
  { split; [reflexivity|]. exists [EvExists engine].
    split; [reflexivity | repeat constructor]. }
  intros H. eapply grows_by_trans; [exact H1|]. revert H.
  destruct (negb _); [intros [= <- <-]; apply grows_by_refl|].
  unfold bind at 1.
  destruct (read_text engine w1) as [[original|e] w2] eqn:Hread.
  2:{ intros [= <- <-]. revert Hread. unfold read_text, open_read.
      generalize w1 (@Raise string e) w2.
      keeps_with (grows_by_refl P) (grows_by_trans P)
        ltac:(apply emit_grows_by; reflexivity). }
  assert (H2 : grows_by P w1 w2).
  { revert Hread. unfold read_text, open_read.
    generalize w1 (Return original) w2.
    keeps_with (grows_by_refl P) (grows_by_trans P)
      ltac:(apply emit_grows_by; reflexivity). }
  intros H. eapply grows_by_trans; [exact H2|]. revert H.
  rewrite (bind_return _ _ _ _ _ (utcnow_stamp_step w2)).
  assert (Hu2 : utc w2 = utc w).
  { destruct H2 as [-> _]. exact Hu0. }
  rewrite Hu2.
  set (w3 := log EvClock w2).
  assert (H3 : grows_by P w2 w3).
  { split; [reflexivity|]. exists [EvClock].
    split; [reflexivity | repeat constructor]. }
  intros H. eapply grows_by_trans; [exact H3|]. revert H.
  generalize w3 o w'.
  keeps_with (grows_by_refl P) (grows_by_trans P)
    ltac:(first [ apply write_text_grows_by; subst P; cbn; tauto
                | apply run_command_grows_by; subst P; cbn; tauto ]).
Qed.

Lemma write_text_same_spawned p data : keeps same_spawned (write_text p data).
Proof. unfold write_text, open_w, file_write. spawn_free. Qed.

Lemma run_command_spawned cmd w o w' :
  call_run_command shell cmd [] w = (o, w') ->
  spawned (trace w') = (spawned (trace w) ++ [cmd])%list.
Proof.
  unfold call_run_command, check_keywords. cbn [List.find].
  unfold run_command, bind, ret, raise, emit, get_world, put_fs.
  cbn [fs log]. destruct (shell cmd (fs w)) as [[raw|e] f].
  - destruct (decode_text (stdout raw)); [destruct (decode_text (stderr raw))|];
      intros [= <- <-]; cbn [trace set_fs log]; apply spawned_snoc.
  - intros [= <- <-]. cbn [trace set_fs log]. apply spawned_snoc.
Qed.

(** X15.  An [ok] is earned.  When the guard returns status [ok], the
    protected file was there, the content was a string, and both checks
    ran on it to their end and exited zero: the compile check on the
    store with the backup and the proposed content written, the smoke
    test on the store the compile check left.  Nothing else was run,
    the result carries what the two wrote and returned, and the store
    is the one the smoke test left. *)
Theorem ok_means_both_checks_passed :
  forall (p : string) (content : value) (w : World) (r : dict) (w' : World),
    guard (VPath p) content w = (Return r, w') ->
    dict_lookup r "status" = Some (VStr "ok") ->
    exists original new_content c f2 s f3,
      files (fs w) !! engine = Some original
      /\ content = VStr new_content
      /\ shell compile_cmd
           (store engine new_content
              (store (backup (utc w)) (universal_newlines original) (fs w)))
         = (Return c, f2)
      /\ returncode c = 0
      /\ shell smoke_cmd f2 = (Return s, f3)
      /\ returncode s = 0
      /\ dict_lookup r "compile_result"
         = Some (VDict [("stdout", VStr (universal_newlines (stdout c)));
                        ("stderr", VStr (universal_newlines (stderr c)));
                        ("returncode", VInt (returncode c))])
      /\ dict_lookup r "smoke_result"
         = Some (VDict [("stdout", VStr (universal_newlines (stdout s)));
                        ("stderr", VStr (universal_newlines (stderr s)));
                        ("returncode", VInt (returncode s))])
      /\ fs w' = f3
      /\ spawned (trace w')
         = (spawned (trace w) ++ [compile_cmd; smoke_cmd])%list.
Proof.
  intros p content w r w'. rewrite guard_validate.
  destruct (negb (String.eqb _ _));
    [unfold ret; intros [= <- <-]; discriminate|].
  erewrite bind_return by apply path_exists_step.
  destruct (negb _); [unfold ret; intros [= <- <-]; discriminate|].
  unfold bind at 1.
  destruct (read_text engine _) as [[text|?] w2] eqn:Hread; [|discriminate].
  apply read_text_returns in Hread as (original & Hfile & -> & ->).
  cbn [fs log] in Hfile.
  erewrite bind_return by apply utcnow_stamp_step.
  cbn [utc log].
  unfold bind at 1.
  destruct (write_text (backup _) _ _) as [[[]|?] w4] eqn:Hb; [|discriminate].
  apply write_text_returns in Hb as ->.
  unfold bind at 1.
  destruct (write_text engine content _) as [[[]|?] w5] eqn:He;
    [|discriminate].
  destruct (write_text_needs_str _ _ _ _ He) as [new_content ->].
  apply write_text_returns in He as ->.
  unfold bind at 1.
  destruct (call_run_command shell compile_cmd [] _) as [[c|?] w6] eqn:Hc;
    [|discriminate].
  apply run_command_returns in Hc as (rc & f2 & Hc & -> & ->).
  cbn [returncode decoded].
  destruct (negb (returncode rc =? 0)) eqn:Hrc.
  { unfold bind at 1.
    destruct (write_text engine (VStr _) _) as [[[]|?] w7]; [|discriminate].
    unfold ret. intros [= <- <-]. discriminate. }
  unfold bind at 1.
  destruct (call_run_command shell smoke_cmd [] _) as [[s|?] w7] eqn:Hs;
    [|discriminate].
  apply run_command_returns in Hs as (rs & f3 & Hs & -> & ->).
  cbn [returncode decoded].
  destruct (negb (returncode rs =? 0)) eqn:Hrs.
  { unfold bind at 1.
    destruct (write_text engine (VStr _) _) as [[[]|?] w8]; [|discriminate].
    unfold ret. intros [= <- <-]. discriminate. }
  unfold ret. intros [= <- <-] _.
  apply negb_false_iff, Z.eqb_eq in Hrc, Hrs.
  cbn [fs set_fs log] in Hc, Hs.
  exists original, new_content, rc, f2, rs, f3.
  repeat split; try assumption.
  cbn [trace set_fs log]. rewrite !spawned_snoc, !app_nil_r.
  now rewrite <- app_assoc.
Qed.

(** X18.  What [write_file] wrote, [read_file] reads: in a store kept
    under canonical paths, a batch that writes a text to a canonical
    path in an existing directory and then reads the same path is
    answered with [ok] and with that text, its line ends read as line
    feeds; the file holds the text as it was written. *)
Theorem write_then_read_gives_content_back :
  forall run modify (p content : string) (w : World),
    utf8_valid content = true ->
    tidy (fs w) = true ->
    canonical p = true ->
    dirname p <> "" ->
    is_dir (fs w) (dirname p) = true ->
    is_dir (fs w) p = false ->
    exists w',
      execute_with run modify
        [ [("type", VStr "write_file"); ("path", VStr p);
           ("content", VStr content)];
          [("type", VStr "read_file"); ("path", VStr p)] ] w
      = (Return [("results",
                  VList [VDict [("type", VStr "write_file"); ("path", VStr p);
                                ("status", VStr "ok")];
                         VDict [("type", VStr "read_file"); ("path", VStr p);
                                ("content",
                                 VStr (universal_newlines content))]])], w')
      /\ files (fs w') !! p = Some content.
Proof.
  intros run modify p content w Hvalid _ _ Hd Hdir Hnot.
  assert (Hne : p <> "") by (intros ->; apply Hd; reflexivity).
  assert (Hw : writable (fs (log (EvMakedirs (dirname p)) w)) p = true).
  { unfold writable. cbn [fs log]. apply String.eqb_neq in Hne.
    rewrite Hne, Hnot, Hdir. cbn [negb andb]. apply orb_true_r. }
  apply String.eqb_neq in Hne.
  assert (Hwrite :
    dispatch_with run modify
      [("type", VStr "write_file"); ("path", VStr p);
       ("content", VStr content)] w
    = (Return [("type", VStr "write_file"); ("path", VStr p);
               ("status", VStr "ok")],
       set_fs (store p content
                 (fs (set_fs (store p "" (fs w))
                        (log (EvWrite p) (log (EvMakedirs (dirname p)) w)))))
              (set_fs (store p "" (fs w))
                 (log (EvWrite p) (log (EvMakedirs (dirname p)) w))))).
  { unfold dispatch. cbn [dict_get dict_get_default dict_lookup String.eqb
      Ascii.eqb Bool.eqb default from_option id eq_str truthy].
    rewrite Hne. cbn [negb]. unfold try_except.
    erewrite bind_return by reflexivity.
    erewrite bind_return by (apply makedirs_existing; assumption).
    erewrite bind_return by reflexivity.
    erewrite bind_return by (apply open_w_ok; exact Hw).
    erewrite bind_return by reflexivity.
    reflexivity. }
  match type of Hwrite with _ = (_, ?x) => set (w1 := x) in * end.
  assert (Hread :
    dispatch_with run modify [("type", VStr "read_file"); ("path", VStr p)] w1
    = (Return [("type", VStr "read_file"); ("path", VStr p);
               ("content", VStr (universal_newlines content))],
       log (EvRead p) w1)).
  { unfold dispatch. cbn [dict_get dict_get_default dict_lookup String.eqb
      Ascii.eqb Bool.eqb default from_option id eq_str truthy].
    rewrite Hne. cbn [negb]. unfold try_except.
    erewrite bind_return by reflexivity.
    erewrite bind_return
      by (apply read_text_ok;
          [subst w1; cbn [fs set_fs store files]; apply lookup_insert_eq
          | exact Hvalid]).
    reflexivity. }
  exists (log (EvRead p) w1). split.
  - unfold execute_actions. unfold bind at 1. cbn [run_batch].
    rewrite (bind_return _ _ _ _ _ Hwrite).
    rewrite (bind_return _ _ _ _ _ Hread). reflexivity.
  - subst w1. cbn [fs set_fs log store files]. apply lookup_insert_eq.
Qed.

(** X19.  [list_dir] on a canonical path given as a string, in a store
    kept under canonical paths: for a directory the result carries its
    entries in ascending order, each exactly once as the directory has
    them; for anything else the result carries the error text and no
    [items].  Either way the listing is the only OS call and the file
    store is unchanged. *)
Theorem list_dir_sorted_or_error :
  forall run modify (action : dict) (d : string) (w : World),
    dict_get action "type" = VStr "list_dir" ->
    dict_lookup action "path" = Some (VStr d) ->
    tidy (fs w) = true ->
    canonical d = true ->
    exists r,
      dispatch_with run modify action w = (Return r, log (EvListdir d) w)
      /\ if is_dir (fs w) d
         then exists items,
                r = [("type", VStr "list_dir"); ("path", VStr d);
                     ("items", VList (map VStr items))]
                /\ items ≡ₚ entries (fs w) d
                /\ StronglySorted String.le items
         else dict_lookup r "items" = None
              /\ exists msg, dict_lookup r "error" = Some (VStr msg).
Proof.
  intros run modify action d w Ht Hp _ _.
  unfold dispatch. rewrite Ht. cbn [eq_str String.eqb Ascii.eqb Bool.eqb].
  unfold dict_get_default. rewrite Hp. cbn [default from_option id].
  unfold try_except, os_listdir, listdir_path, bind, emit, get_world, ret,
    raise.
  cbn [fs log].
  destruct (is_dir (fs w) d).
  - eexists. split; [reflexivity|]. exists (sorted (entries (fs w) d)).
    split; [reflexivity|]. split.
    + apply merge_sort_Permutation.
    + apply StronglySorted_merge_sort; apply _.
  - destruct (is_file (fs w) d);
      (eexists; split; [reflexivity|]; split; [reflexivity|];
       eexists; reflexivity).
Qed.

End Properties.

(** * Properties of the code around the executor *)

Lemma is_relative_to_iff (self other : list string) :
  is_relative_to self other = true <-> exists rest, self = (other ++ rest)%list.
Proof.
  revert self. induction other as [|o other IH]; intros self.
  - split; [intros _; now exists self | intros _; now destruct self].
  - destruct self as [|x self]; cbn [is_relative_to].
    + split; [discriminate | intros [rest H]; discriminate H].
    + rewrite andb_true_iff, String.eqb_eq, IH. split.
      * intros [-> [rest ->]]. now exists rest.
      * intros [rest [= -> ->]]. split; [reflexivity | now exists rest].
Qed.

Lemma in_ancestors (self other : list string) :
  In other (ancestors self)
  <-> exists y rest, self = (other ++ y :: rest)%list.
Proof.
  revert other. induction self as [|x self IH]; intros other.
  - split; [intros [] | intros (y & rest & H)].
    now destruct other.
  - cbn [ancestors]. rewrite in_app_iff, in_map_iff. split.
    + intros [(o & <- & Ho) | [<- | []]].
      * apply IH in Ho as (y & rest & ->). now exists y, rest.
      * now exists x, self.
    + intros (y & rest & H). destruct other as [|o other].
      * right. now left.
      * left. injection H as -> ->. exists other. split; [reflexivity|].
        apply IH. now exists y, rest.
Qed.

(** The walk over the ancestors decides what [is_relative_to] decides. *)
Lemma ancestor_walk_agrees (self other : list string) :
  parts_eqb other self || existsb (parts_eqb other) (ancestors self)
  = is_relative_to self other.
Proof.
  apply eq_true_iff_eq. rewrite orb_true_iff, existsb_exists, is_relative_to_iff.
  unfold parts_eqb. split.
  - intros [H | (a & Hin & H)]; apply bool_decide_eq_true in H; subst.
    + exists []. now rewrite app_nil_r.
    + apply in_ancestors in Hin as (y & rest & ->). now exists (y :: rest).
  - intros [[|y rest] ->].
    + left. apply bool_decide_eq_true. now rewrite app_nil_r.
    + right. exists other. split; [|now apply bool_decide_eq_true].
      apply in_ancestors. now exists y, rest.
Qed.

Section ControllerProperties.

Context (ROOT_DIR : string)
        (realpath : FS -> string -> string)
        (repr_other : value -> string)
        (chat_completion : list dict -> outcome (option string))
        (json_loads : string -> string + value).

(** X16.  Containment under [strategies/] goes by path components, and
    does not depend on the Python that runs it: with or without
    [is_relative_to], the answer for a path is [True] exactly when the
    parts of the resolved strategies directory open the parts of the
    resolved path.  Nothing but path resolution is asked of the file
    system. *)
Theorem is_under_strategies_by_components :
  forall (has_is_relative_to : bool) (p : string) (w : World),
    exists b w',
      is_under_strategies ROOT_DIR realpath has_is_relative_to (VPath p) w
      = (Return b, w')
      /\ fs w' = fs w
      /\ Forall (fun ev => is_probe ev = true)
                (drop (length (trace w)) (trace w'))
      /\ (b = true
          <-> exists rest,
                path_parts (realpath (fs w) p)
                = (path_parts (realpath (fs w) (path_join ROOT_DIR "strategies"))
                   ++ rest)%list).
Proof.
  intros has p w. destruct has.
  - do 2 eexists. split; [reflexivity|]. split; [reflexivity|]. split.
    + cbn [trace log]. rewrite <- app_assoc, drop_app_length.
      repeat constructor.
    + cbn [fs log]. apply is_relative_to_iff.
  - do 2 eexists. split; [reflexivity|]. split; [reflexivity|]. split.
    + cbn [trace log]. rewrite <- !app_assoc, drop_app_length.
      repeat constructor.
    + cbn [fs log]. rewrite ancestor_walk_agrees. apply is_relative_to_iff.
Qed.

(** X17.  [call_agent] returns only what the loop can use: it returns
    [data] exactly when the model replied with text that decodes to an
    object whose ["actions"] is a list, and then [data] is that object;
    every other reply ends in an exception.  It never touches the
    world. *)
Theorem call_agent_returns_action_lists :
  forall (messages : list dict) (data : value) (w w' : World),
    call_agent repr_other chat_completion json_loads messages w
    = (Return data, w')
    <-> (w' = w
         /\ exists content d l,
              chat_completion messages = Return (Some content)
              /\ json_loads content = inr data
              /\ data = VDict d
              /\ dict_lookup d "actions" = Some (VList l)).
Proof.
  intros messages data w w'. unfold call_agent. split.
  - destruct (chat_completion messages) as [[content|]|e] eqn:Hchat;
      try discriminate.
    destruct (json_loads content) as [err|v] eqn:Hjson; try discriminate.
    unfold bind, lacks_action_list, ret, raise.
    destruct v as [| | | |s|l|d|]; try discriminate.
    + destruct (str_contains "actions" s); discriminate.
    + destruct (existsb _ l); discriminate.
    + destruct (dict_lookup d "actions") as [[| | | | |l| |]|] eqn:Hd;
        try discriminate.
      intros [= <- <-]. split; [reflexivity|]. now exists content, d, l.
  - intros (-> & content & d & l & -> & -> & -> & Hd).
    unfold bind, lacks_action_list, ret. now rewrite Hd.
Qed.

End ControllerProperties.

(** * The theorems at the sample worlds *)

Lemma unknown_action_error_result_witness :
  exists r,
    dispatch sample_root true true sample_realpath shell_passes sample_repr
      [("type", VStr "delete_file"); ("path", VStr "engine/backtest.py")]
      sample_world
    = (Return r, sample_world)
    /\ dict_lookup r "status" = Some (VStr "error")
    /\ dict_lookup r "raw_action"
       = Some (VDict [("type", VStr "delete_file");
                      ("path", VStr "engine/backtest.py")])
    /\ forall rest results,
         run_batch sample_root true true sample_realpath shell_passes
           sample_repr
           ([("type", VStr "delete_file"); ("path", VStr "engine/backtest.py")]
            :: rest) results sample_world
         = run_batch sample_root true true sample_realpath shell_passes
             sample_repr rest (results ++ [r]) sample_world.
Proof.
  apply (unknown_action_error_result sample_root sample_realpath shell_passes
           sample_repr true true).
  intros t Hin. simpl in Hin.
  repeat (destruct Hin as [<- | Hin]; [vm_compute; discriminate|]).
  destruct Hin.
Defined.

Lemma modify_engine_dispatch_is_error_witness :
  exists r,
    dispatch sample_root true true sample_realpath shell_passes sample_repr
      [("type", VStr "modify_engine"); ("path", VStr "engine/backtest.py");
       ("content", VStr "def f(): return 2")]
      sample_world
    = (Return r, sample_world)
    /\ dict_lookup r "status" = Some (VStr "error")
    /\ dict_lookup r "backup_path" = None
    /\ dict_lookup r "stage" = None.
Proof.
  apply (modify_engine_dispatch_is_error sample_root sample_realpath
           shell_passes sample_repr true).
  - reflexivity.
  - right. exists "engine/backtest.py". reflexivity.
Defined.

Lemma disallowed_command_is_blocked_witness :
  strip "  rm -rf /repo  " = "rm -rf /repo"
  /\ exists r msg,
       dispatch sample_root true true sample_realpath shell_passes sample_repr
         [("type", VStr "run_command"); ("command", VStr "  rm -rf /repo  ")]
         sample_world
       = (Return r, sample_world)
       /\ dict_lookup r "status" = Some (VStr "blocked")
       /\ dict_lookup r "command" = Some (VStr (strip "  rm -rf /repo  "))
       /\ dict_lookup r "error" = Some (VStr msg)
       /\ occurs_in (strip "  rm -rf /repo  ") msg
       /\ Forall (fun p => occurs_in p msg) allowed_prefixes.
Proof.
  split; [reflexivity|].
  apply (disallowed_command_is_blocked sample_root sample_realpath
           shell_passes sample_repr true).
  - reflexivity.
  - reflexivity.
  - vm_compute. discriminate.
  - intros p Hin. simpl in Hin.
    repeat (destruct Hin as [<- | Hin]; [reflexivity|]).
    destruct Hin.
Defined.


Lemma refused_mutation_touches_nothing_witness :
  dispatch sample_root true false sample_realpath shell_passes sample_repr
    [("type", VStr "modify_engine"); ("path", VStr "engine/backtest.py");
     ("content", VStr "def f(): return 2")]
    sample_world
  = (Return [("type", VStr "modify_engine"); ("status", VStr "blocked");
             ("reason", VStr "ALLOW_MODIFY_ENGINE=False no driver.py")],
     sample_world)
  /\ (exists r msg w',
        safe_modify_engine_backtest sample_root sample_realpath shell_passes
          sample_repr (VPath "/repo/agent/driver.py")
          (VStr "def f(): return 2") sample_world
        = (Return r, w')
        /\ dict_lookup r "status" = Some (VStr "blocked")
        /\ dict_lookup r "error" = Some (VStr msg) /\ msg <> ""
        /\ fs w' = fs sample_world
        /\ exists evs, trace w' = (trace sample_world ++ evs)%list
                       /\ forallb is_probe evs = true)
  /\ (exists r msg w',
        safe_modify_engine_backtest sample_root sample_realpath shell_passes
          sample_repr (VPath "/repo/engine/backtest.py")
          (VStr "def f(): return 2") bare_world
        = (Return r, w')
        /\ dict_lookup r "status" = Some (VStr "blocked")
        /\ dict_lookup r "error" = Some (VStr msg) /\ msg <> ""
        /\ fs w' = fs bare_world
        /\ exists evs, trace w' = (trace bare_world ++ evs)%list
                       /\ forallb is_probe evs = true).
Proof.
  destruct (refused_mutation_touches_nothing sample_root sample_realpath
              shell_passes sample_repr sample_world) as [Hoff Hguard].
  destruct (refused_mutation_touches_nothing sample_root sample_realpath
              shell_passes sample_repr bare_world) as [_ Hbare].
  split; [|split].
  - apply Hoff. reflexivity.
  - apply Hguard. left. vm_compute. discriminate.
  - apply Hbare. right. split; vm_compute; reflexivity.
Defined.

(** C1.  The restoration is of the text, not of the bytes.  The
    protected file holds two lines that end in carriage return and line
    feed; the proposed content fails the compile check.  The guard
    answers [reverted] at stage [compile] and names the backup, but the
    read in text mode has turned each line end into a line feed, and
    that text is what the backup and the restored file hold: the
    protected file is not what it was before the attempt, and no file
    has the bytes it had. *)
Theorem revert_changes_line_ends :
  exists r w',
    safe_modify_engine_backtest sample_root sample_realpath
      shell_compile_fails sample_repr (VPath "/repo/engine/backtest.py")
      (VStr "x = ") crlf_world
    = (Return r, w')
    /\ dict_lookup r "status" = Some (VStr "reverted")
    /\ dict_lookup r "stage" = Some (VStr "compile")
    /\ dict_lookup r "backup_path"
       = Some (VStr "/repo/engine/backtest_backup_20240101_120000.py")
    /\ files (fs crlf_world) !! "/repo/engine/backtest.py" = Some crlf_text
    /\ files (fs w') !! "/repo/engine/backtest.py" = Some lf_text
    /\ files (fs w') !! "/repo/engine/backtest_backup_20240101_120000.py"
       = Some lf_text
    /\ crlf_text <> lf_text.
Proof.
  do 2 eexists. split; [vm_compute; reflexivity|].
  repeat split; discriminate.
Qed.

(** A second way to lose the original: the compile check fails, and
    what it wrote on its error stream is no UTF-8.  [subprocess.run]
    raises while decoding it, the guard has no handler, and the
    rejected content stays in the protected file. *)
Lemma garbled_check_keeps_rejected_content :
  exists w',
    safe_modify_engine_backtest sample_root sample_realpath
      shell_compile_garbled sample_repr (VPath "/repo/engine/backtest.py")
      (VStr "x = ") sample_world
    = (Raise undecodable, w')
    /\ files (fs sample_world) !! "/repo/engine/backtest.py"
       = Some "def f(): return 1"
    /\ files (fs w') !! "/repo/engine/backtest.py" = Some "x = ".
Proof. eexists. split; [vm_compute; reflexivity|]. split; reflexivity. Qed.

(** Both checks exit zero and the guard does not answer [ok] with the
    proposed content in place.  A smoke test that writes a byte that is
    no UTF-8 makes [subprocess.run] raise after the process has exited
    zero: the guard raises, with the proposed content in the protected
    file.  A smoke test that rewrites the protected file leaves its own
    text there: the guard answers [ok] for content the file does not
    hold. *)
Lemma passing_checks_may_not_commit :
  (let written :=
     store "/repo/engine/backtest.py" "def f(): return 2"
       (store "/repo/engine/backtest_backup_20240101_120000.py"
          "def f(): return 1" sample_fs) in
   shell_smoke_garbled compile_cmd written
   = (Return (mkProc "" "" 0), written)
   /\ shell_smoke_garbled smoke_cmd written
      = (Return (mkProc garbled "" 0), written)
   /\ exists w',
        safe_modify_engine_backtest sample_root sample_realpath
          shell_smoke_garbled sample_repr (VPath "/repo/engine/backtest.py")
          (VStr "def f(): return 2") sample_world
        = (Raise undecodable, w')
        /\ files (fs w') !! "/repo/engine/backtest.py"
           = Some "def f(): return 2")
  /\ (exists r w',
        safe_modify_engine_backtest sample_root sample_realpath
          shell_smoke_rewrites sample_repr (VPath "/repo/engine/backtest.py")
          (VStr "def f(): return 2") sample_world
        = (Return r, w')
        /\ dict_lookup r "status" = Some (VStr "ok")
        /\ dict_lookup r "compile_result"
           = Some (VDict [("stdout", VStr ""); ("stderr", VStr "");
                          ("returncode", VInt 0)])
        /\ dict_lookup r "smoke_result"
           = Some (VDict [("stdout", VStr ""); ("stderr", VStr "");
                          ("returncode", VInt 0)])
        /\ files (fs w') !! "/repo/engine/backtest.py"
           = Some "def f(): return 3").
Proof.
  split.
  - cbv zeta. split; [reflexivity|]. split; [reflexivity|].
    eexists. split; vm_compute; reflexivity.
  - do 2 eexists. split; [vm_compute; reflexivity|].
    repeat split.
Qed.

Lemma passing_checks_commit_content_witness :
  exists r w',
    safe_modify_engine_backtest sample_root sample_realpath shell_passes
      sample_repr (VPath "/repo/engine/backtest.py")
      (VStr "def f(): return 2") sample_world
    = (Return r, w')
    /\ fs w'
       = store "/repo/engine/backtest.py" "def f(): return 2"
           (store "/repo/engine/backtest_backup_20240101_120000.py"
              "def f(): return 1" sample_fs)
    /\ files (fs w') !! "/repo/engine/backtest.py" = Some "def f(): return 2"
    /\ dict_lookup r "status" = Some (VStr "ok")
    /\ dict_lookup r "backup_path"
       = Some (VStr "/repo/engine/backtest_backup_20240101_120000.py")
    /\ dict_lookup r "compile_result"
       = Some (VDict [("stdout", VStr "done"); ("stderr", VStr "");
                      ("returncode", VInt 0)])
    /\ dict_lookup r "smoke_result"
       = Some (VDict [("stdout", VStr "done"); ("stderr", VStr "");
                      ("returncode", VInt 0)]).
Proof.
  apply (passing_checks_commit_content sample_root sample_realpath
           shell_passes sample_repr sample_world
           "/repo/engine/backtest.py" "def f(): return 2" "def f(): return 1"
           (mkProc "done" "" 0) (mkProc "done" "" 0)
           (store "/repo/engine/backtest.py" "def f(): return 2"
              (store "/repo/engine/backtest_backup_20240101_120000.py"
                 "def f(): return 1" sample_fs))
           (store "/repo/engine/backtest.py" "def f(): return 2"
              (store "/repo/engine/backtest_backup_20240101_120000.py"
                 "def f(): return 1" sample_fs)));
    reflexivity.
Defined.

Lemma tame_batch_is_answered_in_order_witness :
  exists rs w',
    execute_actions sample_root true true sample_realpath shell_passes
      sample_repr sample_batch sample_world
    = (Return [("results", VList (map VDict rs))], w')
    /\ answers (fun a => dispatch sample_root true true sample_realpath
                           shell_passes sample_repr a)
               sample_batch sample_world rs w'
    /\ length rs = length sample_batch.
Proof.
  apply (tame_batch_is_answered_in_order sample_root sample_realpath
           shell_passes sample_repr true true sample_batch sample_world).
  repeat constructor.
Defined.

Lemma aborted_batch_keeps_earlier_effects_witness :
  exists rs w1 e,
    answers (fun a => dispatch sample_root true true sample_realpath
                        shell_passes sample_repr a)
            sample_batch sample_world rs w1
    /\ execute_actions sample_root true true sample_realpath shell_passes
         sample_repr
         (sample_batch
          ++ [("type", VStr "run_command");
              ("command", VStr "pip install -r requirements.txt")]
          :: [ [("type", VStr "list_dir")] ])
         sample_world
       = (Raise e, w1).
Proof.
  apply (aborted_batch_keeps_earlier_effects sample_root sample_realpath
           shell_passes sample_repr true true sample_batch).
  - repeat constructor.
  - reflexivity.
Defined.

Lemma json_batch_starts_no_process_witness :
  spawned (trace (snd (execute_actions sample_root true true sample_realpath
                         shell_passes sample_repr sample_batch sample_world)))
  = spawned (trace sample_world).
Proof.
  eapply (json_batch_starts_no_process sample_root sample_realpath
            shell_passes sample_repr true true sample_batch).
  - repeat constructor.
  - apply surjective_pairing.
Defined.

Lemma only_write_file_changes_the_store_witness :
  fs (snd (execute_actions sample_root true true sample_realpath shell_passes
             sample_repr
             [ [("type", VStr "list_dir"); ("path", VStr "/repo/engine")];
               [("type", VStr "read_file");
                ("path", VStr "/repo/engine/backtest.py")];
               [("type", VStr "modify_engine");
                ("path", VStr "engine/backtest.py"); ("content", VStr "x")];
               [("type", VStr "run_command");
                ("command", VStr "python engine/backtest.py s.py")] ]
             sample_world))
  = fs sample_world.
Proof.
  eapply (only_write_file_changes_the_store sample_root sample_realpath
            shell_passes sample_repr true true); cycle 1.
  - apply surjective_pairing.
  - repeat constructor; discriminate.
Defined.

Lemma write_file_overwrites_any_path_witness :
  dispatch sample_root true true sample_realpath shell_passes sample_repr
    [("type", VStr "write_file"); ("path", VStr "/repo/engine/backtest.py");
     ("content", VStr "def f() return 1")]
    sample_world
  = (Return [("type", VStr "write_file");
             ("path", VStr "/repo/engine/backtest.py");
             ("status", VStr "ok")],
     mkWorld (store "/repo/engine/backtest.py" "def f() return 1"
                (fs sample_world))
             (utc sample_world)
             (trace sample_world
              ++ [EvMakedirs (dirname "/repo/engine/backtest.py");
                  EvWrite "/repo/engine/backtest.py"])).
Proof.
  apply (write_file_overwrites_any_path sample_root sample_realpath
           shell_passes sample_repr true true);
    [reflexivity | reflexivity | reflexivity
    | reflexivity | vm_compute; reflexivity | reflexivity
    | vm_compute; discriminate | reflexivity | reflexivity].
Defined.

Lemma write_file_bad_content_empties_file_witness :
  exists w',
    dispatch sample_root true true sample_realpath shell_passes sample_repr
      [("type", VStr "write_file"); ("path", VStr "/repo/engine/backtest.py");
       ("content", VNone)]
      sample_world
    = (Return [("type", VStr "write_file");
               ("path", VStr "/repo/engine/backtest.py");
               ("error", VStr "write() argument must be str, not None")], w')
    /\ files (fs w') !! "/repo/engine/backtest.py" = Some ""
    /\ (forall q, q <> "/repo/engine/backtest.py" ->
                  files (fs w') !! q = files (fs sample_world) !! q)
    /\ dirs (fs w') = dirs (fs sample_world).
Proof.
  apply (write_file_bad_content_empties_file sample_root sample_realpath
           shell_passes sample_repr true true
           [("type", VStr "write_file");
            ("path", VStr "/repo/engine/backtest.py"); ("content", VNone)]
           "/repo/engine/backtest.py" VNone sample_world);
    [reflexivity | reflexivity | reflexivity | discriminate
    | vm_compute; reflexivity | reflexivity
    | vm_compute; discriminate | reflexivity | reflexivity].
Defined.

Lemma whitelist_is_a_prefix_test_witness :
  (exists r,
     dispatch sample_root true true sample_realpath shell_passes sample_repr
       [("type", VStr "run_command");
        ("command", VStr " python engine/backtest.py s.py; rm -rf /repo ")]
       sample_world
     = (Return r, sample_world)
     /\ dict_lookup r "status" = Some (VStr "blocked")
     /\ dict_lookup r "command"
        = Some (VStr (strip " python engine/backtest.py s.py; rm -rf /repo ")))
  <-> ~ exists p rest,
          In p [ "python engine/fetch_data.py";
                 "python engine/backtest.py";
                 "python engine/analyze_runs.py";
                 "python engine/plot_strategy.py";
                 "python engine/optimize_params.py";
                 "pip install -r requirements.txt" ]
          /\ strip " python engine/backtest.py s.py; rm -rf /repo "
             = p ++ rest.
Proof.
  apply (whitelist_is_a_prefix_test sample_root sample_realpath shell_passes
           sample_repr true);
    [reflexivity | reflexivity | vm_compute; discriminate].
Defined.

Lemma blank_command_is_an_error_witness :
  dispatch sample_root true true sample_realpath shell_passes sample_repr
    [("type", VStr "run_command"); ("command", VStr "   ")] sample_world
  = (Return [("type", VStr "run_command"); ("status", VStr "error");
             ("error", VStr "empty command")], sample_world).
Proof.
  apply (blank_command_is_an_error sample_root sample_realpath shell_passes
           sample_repr true true).
  - reflexivity.
  - right. exists "   ". split; reflexivity.
Defined.

Lemma disabled_commands_are_blocked_witness :
  dispatch sample_root false true sample_realpath shell_passes sample_repr
    [("type", VStr "run_command");
     ("command", VStr "python engine/backtest.py s.py")] sample_world
  = (Return [("type", VStr "run_command");
             ("command", VStr (strip "python engine/backtest.py s.py"));
             ("status", VStr "blocked");
             ("error", VStr "Execução de comandos desativada (ALLOW_RUN_COMMANDS=False).")],
     sample_world).
Proof.
  apply (disabled_commands_are_blocked sample_root sample_realpath
           shell_passes sample_repr true);
    [reflexivity | reflexivity | vm_compute; discriminate].
Defined.

Lemma modify_engine_is_never_ok_witness :
  exists r w',
    dispatch sample_root true true sample_realpath shell_passes sample_repr
      [("type", VStr "modify_engine");
       ("path", VPath "/repo/engine/backtest.py");
       ("content", VStr "def f(): return 2")]
      sample_world
    = (Return r, w')
    /\ dict_lookup r "status" = Some (VStr "error").
Proof.
  apply (modify_engine_is_never_ok sample_root sample_realpath shell_passes
           sample_repr true).
  reflexivity.
Defined.

Lemma reverted_means_restored_witness :
  files (fs (snd (safe_modify_engine_backtest sample_root sample_realpath
                    shell_compile_fails sample_repr
                    (VPath "/repo/engine/backtest.py")
                    (VStr "x = ") crlf_world)))
    !! "/repo/engine/backtest.py"
  = Some (universal_newlines crlf_text).
Proof.
  eapply (reverted_means_restored sample_root sample_realpath
            shell_compile_fails sample_repr "/repo/engine/backtest.py"
            (VStr "x = ") crlf_text crlf_world).
  - reflexivity.
  - vm_compute. reflexivity.
  - reflexivity.
Defined.

Lemma failed_backup_leaves_everything_witness :
  exists e w',
    safe_modify_engine_backtest sample_root sample_realpath shell_passes
      sample_repr (VPath "/repo/engine/backtest.py")
      (VStr "def f(): return 2") clogged_world
    = (Raise e, w')
    /\ fs w' = fs clogged_world
    /\ spawned (trace w') = spawned (trace clogged_world).
Proof.
  apply (failed_backup_leaves_everything sample_root sample_realpath
           shell_passes sample_repr clogged_world "/repo/engine/backtest.py"
           (VStr "def f(): return 2") "def f(): return 1");
    reflexivity.
Defined.

Lemma guard_footprint_witness :
  grows_by (guard_event sample_root (utc sample_world)) sample_world
    (snd (safe_modify_engine_backtest sample_root sample_realpath
            shell_compile_fails sample_repr (VPath "/repo/engine/backtest.py")
            (VStr "def f() return 1") sample_world)).
Proof.
  eapply (guard_footprint sample_root sample_realpath shell_compile_fails
            sample_repr).
  apply surjective_pairing.
Defined.

Lemma ok_means_both_checks_passed_witness :
  exists original new_content c f2 s f3,
    files (fs sample_world) !! "/repo/engine/backtest.py" = Some original
    /\ VStr "def f(): return 2" = VStr new_content
    /\ shell_passes compile_cmd
         (store "/repo/engine/backtest.py" new_content
            (store "/repo/engine/backtest_backup_20240101_120000.py"
               (universal_newlines original) (fs sample_world)))
       = (Return c, f2)
    /\ returncode c = 0
    /\ shell_passes smoke_cmd f2 = (Return s, f3)
    /\ returncode s = 0
    /\ dict_lookup
         match fst (safe_modify_engine_backtest sample_root sample_realpath
                      shell_passes sample_repr
                      (VPath "/repo/engine/backtest.py")
                      (VStr "def f(): return 2") sample_world) with
         | Return r => r
         | Raise _ => []
         end "compile_result"
       = Some (VDict [("stdout", VStr (universal_newlines (stdout c)));
                      ("stderr", VStr (universal_newlines (stderr c)));
                      ("returncode", VInt (returncode c))])
    /\ dict_lookup
         match fst (safe_modify_engine_backtest sample_root sample_realpath
                      shell_passes sample_repr
                      (VPath "/repo/engine/backtest.py")
                      (VStr "def f(): return 2") sample_world) with
         | Return r => r
         | Raise _ => []
         end "smoke_result"
       = Some (VDict [("stdout", VStr (universal_newlines (stdout s)));
                      ("stderr", VStr (universal_newlines (stderr s)));
                      ("returncode", VInt (returncode s))])
    /\ fs (snd (safe_modify_engine_backtest sample_root sample_realpath
                  shell_passes sample_repr (VPath "/repo/engine/backtest.py")
                  (VStr "def f(): return 2") sample_world))
       = f3
    /\ spawned (trace (snd (safe_modify_engine_backtest sample_root
                              sample_realpath shell_passes sample_repr
                              (VPath "/repo/engine/backtest.py")
                              (VStr "def f(): return 2") sample_world)))
       = (spawned (trace sample_world) ++ [compile_cmd; smoke_cmd])%list.
Proof.
  eapply (ok_means_both_checks_passed sample_root sample_realpath shell_passes
            sample_repr "/repo/engine/backtest.py" (VStr "def f(): return 2")
            sample_world).
  - reflexivity.
  - reflexivity.
Defined.

Lemma call_agent_returns_action_lists_witness :
  call_agent sample_repr sample_chat sample_loads
    [[("role", VStr "user"); ("content", VStr "INICIO")]] sample_world
  = (Return (VDict [("actions", VList [VDict [("type", VStr "list_dir")]])]),
     sample_world).
Proof.
  apply (proj2 (call_agent_returns_action_lists sample_repr sample_chat
                  sample_loads _ _ sample_world sample_world)).
  split; [reflexivity|].
  exists sample_reply, [("actions", VList [VDict [("type", VStr "list_dir")]])],
    [VDict [("type", VStr "list_dir")]].
  repeat split.
Defined.

Lemma write_then_read_gives_content_back_witness :
  exists w',
    execute_actions sample_root true true sample_realpath shell_passes
      sample_repr
      [ [("type", VStr "write_file"); ("path", VStr "/repo/engine/notes.md");
         ("content", VStr crlf_text)];
        [("type", VStr "read_file"); ("path", VStr "/repo/engine/notes.md")] ]
      sample_world
    = (Return [("results",
                VList [VDict [("type", VStr "write_file");
                              ("path", VStr "/repo/engine/notes.md");
                              ("status", VStr "ok")];
                       VDict [("type", VStr "read_file");
                              ("path", VStr "/repo/engine/notes.md");
                              ("content",
                               VStr (universal_newlines crlf_text))]])], w')
    /\ files (fs w') !! "/repo/engine/notes.md" = Some crlf_text.
Proof.
  apply (write_then_read_gives_content_back sample_root sample_realpath
           shell_passes sample_repr true true "/repo/engine/notes.md"
           crlf_text sample_world);
    [reflexivity | vm_compute; reflexivity | reflexivity
    | vm_compute; discriminate | reflexivity | reflexivity].
Defined.

Lemma list_dir_sorted_or_error_witness :
  (exists r,
     dispatch sample_root true true sample_realpath shell_passes sample_repr
       [("type", VStr "list_dir"); ("path", VStr "/repo/runs")] sample_world
     = (Return r, log (EvListdir "/repo/runs") sample_world)
     /\ dict_lookup r "items" = None
     /\ exists msg, dict_lookup r "error" = Some (VStr msg))
  /\ dispatch sample_root true true sample_realpath shell_passes sample_repr
       [("type", VStr "list_dir"); ("path", VStr "/repo/engine")] sample_world
     = (Return [("type", VStr "list_dir"); ("path", VStr "/repo/engine");
                ("items", VList [VStr "backtest.py"])],
        log (EvListdir "/repo/engine") sample_world).
Proof.
  split.
  - apply (list_dir_sorted_or_error sample_root sample_realpath shell_passes
             sample_repr true true
             [("type", VStr "list_dir"); ("path", VStr "/repo/runs")]
             "/repo/runs" sample_world);
      [reflexivity | reflexivity | vm_compute; reflexivity | reflexivity].
  - destruct (list_dir_sorted_or_error sample_root sample_realpath
                shell_passes sample_repr true true
                [("type", VStr "list_dir"); ("path", VStr "/repo/engine")]
                "/repo/engine" sample_world eq_refl eq_refl eq_refl eq_refl)
      as (r & Hr & items & -> & Hperm & _).
    rewrite Hr. symmetry in Hperm.
    change (entries (fs sample_world) "/repo/engine")
      with ["backtest.py"] in Hperm.
    apply Permutation_singleton_l in Hperm. subst items. reflexivity.
Defined.
